(** * cathy.py: the message triage and enrichment pipeline of [SingleChannelBot]

    A shallow embedding of [src/cathy.py].

    - Python [str] values are [string]s.  The text model is 7-bit: the
      whitespace table and [upper] below are Python's for code points
      under 128.
    - The provider's [info] dictionary is a [gmap string pyval].
    - The external collaborators (the IRC connection [c], [requests.get],
      [BeautifulSoup], [yf.Ticker]) are modelled at their interface: every
      call the bot makes on them is recorded as an [event] of a trace,
      and their answers are given by a [world], which answers the same
      request in the same way each time.  [c.privmsg] is the call itself:
      what the transport does with the line is not part of the model (a
      transport that refuses a line, for a line break in it or for its
      length, is not described), so that what is proved of the lines is
      proved of the calls made.  A server either answers, fails, or never
      answers: one that answers ever more slowly is not described.
    - A computation either returns, raises a Python exception, or blocks
      for ever (a [requests.get] without [timeout] on a server that never
      answers).  [try ... except Exception] catches the second, never
      the third.
    - The [logger] calls are diagnostic output only and are left out. *)

From Stdlib Require Import Ascii ZArith Lia DecimalString.
From Stdlib Require String.
From stdpp Require Import base option list strings gmap.

Local Open Scope Z_scope.
Local Open Scope nat_scope.

(** ** Python's [str] methods *)

Module PyStr.

(** [c.isspace()] for a 7-bit code point: TAB, LF, VT, FF, CR, FS, GS,
    RS, US and space. *)
Definition isspace (c : ascii) : bool :=
  let n := nat_of_ascii c in
  ((9 <=? n) && (n <=? 13)) || ((28 <=? n) && (n <=? 32)).

(** [s.startswith(p)] *)
Definition startswith (s p : string) : bool := String.prefix p s.

(** [sub in s] *)
Fixpoint contains (sub s : string) : bool :=
  String.prefix sub s ||
  match s with
  | EmptyString => false
  | String _ s' => contains sub s'
  end.

(** [s[n:]] *)
Fixpoint drop (n : nat) (s : string) : string :=
  match n, s with
  | O, _ => s
  | S _, EmptyString => EmptyString
  | S k, String _ s' => drop k s'
  end.

(** [s.partition(sep)], with [None] when [sep] does not occur: the text
    before the first occurrence of [sep], and the text after it. *)
Fixpoint partition (sep s : string) : option (string * string) :=
  if String.prefix sep s then Some (EmptyString, drop (String.length sep) s)
  else match s with
       | EmptyString => None
       | String c s' =>
           match partition sep s' with
           | Some (a, b) => Some (String c a, b)
           | None => None
           end
       end.

(** Adds [c] in front of the first piece. *)
Definition cons_head (c : ascii) (l : list string) : list string :=
  match l with
  | h :: t => String c h :: t
  | [] => [String c EmptyString]
  end.

(** [s.split(sep)] for a non-empty [sep]: the pieces between the
    occurrences of [sep], found from left to right without overlap.
    [skip] counts the characters of a matched [sep] still to pass. *)
Fixpoint split_from (sep s : string) (skip : nat) : list string :=
  match s with
  | EmptyString => [EmptyString]
  | String c s' =>
      match skip with
      | S k => split_from sep s' k
      | O =>
          if String.prefix sep s
          then EmptyString :: split_from sep s' (String.length sep - 1)
          else cons_head c (split_from sep s' 0)
      end
  end.

Definition split (sep s : string) : list string := split_from sep s 0.

(** [s.split()]: the maximal runs of non-whitespace characters. *)
Fixpoint words (s : string) : list string :=
  match s with
  | EmptyString => []
  | String c s' =>
      if isspace c then words s'
      else match s' with
           | EmptyString => [String c EmptyString]
           | String c' _ =>
               if isspace c' then String c EmptyString :: words s'
               else cons_head c (words s')
           end
  end.

(** [l[i]] on a list of strings.  The bot only indexes inside the list:
    [parts[1]] when [len(parts) == 2], [split(marker)[1]] when the marker
    occurs, and [split(stop)[0]]; see [split_length] below. *)
Definition item (l : list string) (i : nat) : string :=
  nth i l EmptyString.

(** [s.replace(old, new)] for a non-empty [old]. *)
Fixpoint replace_from (old new s : string) (skip : nat) : string :=
  match s with
  | EmptyString => EmptyString
  | String c s' =>
      match skip with
      | S k => replace_from old new s' k
      | O =>
          if String.prefix old s
          then new +:+ replace_from old new s' (String.length old - 1)
          else String c (replace_from old new s' 0)
      end
  end.

Definition replace (old new s : string) : string := replace_from old new s 0.

Fixpoint lstrip (s : string) : string :=
  match s with
  | EmptyString => EmptyString
  | String c s' => if isspace c then lstrip s' else s
  end.

Fixpoint rstrip (s : string) : string :=
  match s with
  | EmptyString => EmptyString
  | String c s' =>
      match rstrip s' with
      | EmptyString => if isspace c then EmptyString else String c EmptyString
      | r => String c r
      end
  end.

(** [s.strip()] *)
Definition strip (s : string) : string := rstrip (lstrip s).

Definition upper_char (c : ascii) : ascii :=
  let n := nat_of_ascii c in
  if (97 <=? n) && (n <=? 122) then ascii_of_nat (n - 32) else c.

(** [s.upper()] *)
Fixpoint upper (s : string) : string :=
  match s with
  | EmptyString => EmptyString
  | String c s' => String (upper_char c) (upper s')
  end.

(** Some character of [s] is whitespace. *)
Fixpoint has_space (s : string) : bool :=
  match s with
  | EmptyString => false
  | String c s' => isspace c || has_space s'
  end.

(** [bool(s)]: a string is true when it is not empty. *)
Definition truthy (s : string) : bool :=
  match s with
  | EmptyString => false
  | String _ _ => true
  end.

End PyStr.

(** ** Python values and the provider's dictionary *)

(** The values the provider's [info] dictionary holds.  A float is carried
    by the text [str()] gives for it. *)
Inductive pyval :=
  | PyNone
  | PyInt (z : Z)
  | PyFloat (repr : string)
  | PyStr (s : string).

(** [x is None] *)
Definition is_none (v : pyval) : bool :=
  match v with
  | PyNone => true
  | _ => false
  end.

(** [f"{v}"] *)
Definition format (v : pyval) : string :=
  match v with
  | PyNone => "None"
  | PyInt z => NilZero.string_of_int (Z.to_int z)
  | PyFloat repr => repr
  | PyStr s => s
  end.

(** ** Effects: traces, exceptions and blocking *)

Inductive exn :=
  | ConnectionError
  | Timeout
  | HTTPError
  | AttributeError
  | KeyError
  | ProviderError.

(** A call the bot makes on one of its collaborators. *)
Inductive event :=
  | Privmsg (target text : string)            (* c.privmsg(target, text) *)
  | TickerInfo (symbol : string)              (* yf.Ticker(symbol).info *)
  | HttpGet (url : string) (timeout : option Z). (* requests.get(url[, timeout=t]) *)

Inductive outcome (A : Type) :=
  | Returns (a : A)
  | Raises (e : exn)
  | Blocks.
Arguments Returns {A} a.
Arguments Raises {A} e.
Arguments Blocks {A}.

(** A computation extends the trace of calls made so far. *)
Definition M (A : Type) : Type := list event -> list event * outcome A.

#[global] Instance M_ret : MRet M := fun A a t => (t, Returns a).

#[global] Instance M_bind : MBind M := fun A B f m t =>
  match m t with
  | (t', Returns a) => f a t'
  | (t', Raises e) => (t', Raises e)
  | (t', Blocks) => (t', Blocks)
  end.

Definition raise {A : Type} (e : exn) : M A := fun t => (t, Raises e).

Definition emit (ev : event) : M unit := fun t => (t ++ [ev], Returns ()).

(** [try: body except Exception: handler] *)
Definition try_except {A : Type} (body : M A) (handler : exn -> M A) : M A :=
  fun t =>
    match body t with
    | (t', Raises e) => handler e t'
    | r => r
    end.

(** [for x in l: body(x)] *)
Fixpoint for_each {A : Type} (l : list A) (body : A -> M unit) : M unit :=
  match l with
  | [] => mret ()
  | x :: l' => body x;; for_each l' body
  end.

(** The calls of a run, from an empty trace. *)
Definition run {A : Type} (m : M A) : list event * outcome A := m [].

(** ** The collaborators *)

(** What [yf.Ticker(symbol).info] gives: a dictionary, an object that is
    not a dictionary (a malformed answer: [info.get] raises), or an
    exception. *)
Inductive info_result :=
  | InfoDict (d : gmap string pyval)
  | InfoNotDict
  | InfoRaises (e : exn).

(** The part of a parsed page the bot looks at.  [title]: [soup.title] is
    [None], or a tag whose [.string] is [None] or a string.
    [meta_description]: [soup.find("meta", attrs={"name": "description"})]
    is [None], or a tag with or without a [content] attribute. *)
Record document := {
  title : option (option string);
  meta_description : option (option string)
}.

(** What a server does with a request: answer with a status and a page,
    fail (connection refused, unknown host, bad URL, ...), or never
    answer. *)
Inductive site :=
  | Serves (status_code : Z) (page : document)
  | Refuses
  | Stalls.

Record world := {
  yf_info : string -> info_result;
  web : string -> site
}.

Record response := {
  status_code_of : Z;
  soup_of : document     (* BeautifulSoup(response.content, "html.parser") *)
}.

Module requests.

(** [requests.get(url, timeout=...)]: with a timeout, a server that never
    answers makes the call raise [Timeout]; without one the call never
    returns. *)
Definition get (w : world) (url : string) (timeout : option Z) : M response :=
  emit (HttpGet url timeout);;
  match web w url with
  | Serves st page => mret {| status_code_of := st; soup_of := page |}
  | Refuses => raise ConnectionError
  | Stalls =>
      match timeout with
      | Some _ => raise Timeout
      | None => fun t => (t, Blocks)
      end
  end.

(** The 4xx and 5xx codes. *)
Definition error_status (status_code : Z) : bool :=
  ((400 <=? status_code) && (status_code <? 600))%Z.

(** [response.raise_for_status()] *)
Definition raise_for_status (r : response) : M unit :=
  if error_status (status_code_of r) then raise HTTPError else mret ().

End requests.

(** ** The bot *)

Module SingleChannelBot.
Section Bot.

Context (w : world).

(** [c.privmsg(channel, text)] *)
Definition privmsg (channel text : string) : M unit :=
  emit (Privmsg channel text).

Definition extract_urls (text : string) : list string :=
  filter (fun word => PyStr.startswith word "http") (PyStr.words text).

Definition get_youtube_video_id (url : string) : option string :=
  if PyStr.contains "watch?v=" url then
    Some (PyStr.item (PyStr.split "&" (PyStr.item (PyStr.split "watch?v=" url) 1)) 0)
  else if PyStr.contains "/shorts/" url then
    Some (PyStr.item (PyStr.split "?" (PyStr.item (PyStr.split "/shorts/" url) 1)) 0)
  else if PyStr.contains "youtu.be/" url then
    Some (PyStr.item (PyStr.split "?" (PyStr.item (PyStr.split "youtu.be/" url) 1)) 0)
  else None.

Definition get_youtube_video_title (video_id : string) : M (option string) :=
  try_except
    (response ← requests.get w ("https://www.youtube.com/watch?v=" +:+ video_id) None;
     requests.raise_for_status response;;
     let soup := soup_of response in
     let title :=
       match title soup with
       | Some tag_string => tag_string
       | None => Some "No Title Found"
       end in
     match title with
     | Some s => mret (Some (PyStr.strip (PyStr.replace "- YouTube" "" s)))
     | None => raise AttributeError
     end)
    (fun _ => mret None).

Definition get_webpage_description (url : string) : M (option string) :=
  try_except
    (response ← requests.get w url (Some 10%Z);
     requests.raise_for_status response;;
     let soup := soup_of response in
     title ←
       match title soup with
       | Some (Some s) => mret (PyStr.strip s)
       | Some None => raise AttributeError
       | None => mret "No Title"
       end;
     let meta_desc_tag := meta_description soup in
     meta_desc ←
       match meta_desc_tag with
       | Some (Some content) => mret (PyStr.strip content)
       | Some None => raise KeyError
       | None => mret "No Description"
       end;
     mret (Some ("Title: " +:+ title +:+ ", Description: " +:+ meta_desc)))
    (fun _ => mret None).

(** [yf.Ticker(ticker)] followed by [stock.info] *)
Definition Ticker_info (ticker : string) : M info_result :=
  emit (TickerInfo ticker);;
  match yf_info w ticker with
  | InfoRaises e => raise e
  | r => mret r
  end.

(** [info.get(key, default)] *)
Definition info_get (info : info_result) (key : string) (dflt : pyval) : M pyval :=
  match info with
  | InfoDict d => mret (default dflt (d !! key))
  | _ => raise AttributeError
  end.

Definition get_stock_price (ticker : string) : M string :=
  try_except
    (info ← Ticker_info ticker;
     current_price ← info_get info "regularMarketPrice" PyNone;
     previous_close ← info_get info "regularMarketPreviousClose" PyNone;
     after_hours ← info_get info "postMarketPrice" PyNone;
     pre_market ← info_get info "preMarketPrice" PyNone;
     company_name ← info_get info "longName" (PyStr ticker);
     currency ← info_get info "currency" (PyStr "N/A");
     if is_none current_price then
       if negb (is_none pre_market) then
         mret (format company_name +:+ " (" +:+ ticker +:+ ") is trading at "
               +:+ format pre_market +:+ " " +:+ format currency
               +:+ " in pre-market trading.")
       else if negb (is_none after_hours) then
         mret (format company_name +:+ " (" +:+ ticker +:+ ") is trading at "
               +:+ format after_hours +:+ " " +:+ format currency
               +:+ " in after-hours trading.")
       else if negb (is_none previous_close) then
         mret (format company_name +:+ " (" +:+ ticker +:+ ") closed at "
               +:+ format previous_close +:+ " " +:+ format currency
               +:+ " on the last trading day.")
       else
         mret ("No price data available for ticker: " +:+ ticker)
     else
       mret (format company_name +:+ " (" +:+ ticker +:+ ") is currently trading at "
             +:+ format current_price +:+ " " +:+ format currency))
    (fun _ =>
       mret ("Error fetching data for ticker: " +:+ ticker
             +:+ ". Please try again later.")).

Definition handle_stock_command (message channel : string) : M unit :=
  let parts := PyStr.words message in
  if length parts =? 2 then
    let ticker := PyStr.upper (PyStr.item parts 1) in
    stock_info ← get_stock_price ticker;
    if PyStr.truthy stock_info then
      privmsg channel stock_info
    else
      privmsg channel ("Could not retrieve data for ticker: " +:+ ticker)
  else
    privmsg channel "Usage: !stock TICKER".

(** [if x: body] for [x] a string or [None]: [body] runs when [x] is a
    string that is not empty. *)
Definition when_truthy (x : option string) (body : string -> M unit) : M unit :=
  match x with
  | Some s => if PyStr.truthy s then body s else mret ()
  | None => mret ()
  end.

(** The body of the [for url in urls] loop of [on_pubmsg]. *)
Definition enrich (channel url : string) : M unit :=
  if PyStr.contains "youtube.com" url || PyStr.contains "youtu.be" url then
    let video_id := get_youtube_video_id url in
    when_truthy video_id (fun video_id =>
      title ← get_youtube_video_title video_id;
      when_truthy title (fun title =>
        privmsg channel ("YouTube Title: " +:+ title)))
  else
    description ← get_webpage_description url;
    when_truthy description (fun description =>
      privmsg channel ("Page Info: " +:+ description)).

(** [message] is [e.arguments[0]] and [channel] is [e.target]. *)
Definition on_pubmsg (message channel : string) : M unit :=
  if PyStr.startswith message "!stock" then
    handle_stock_command message channel
  else
    let urls := extract_urls message in
    for_each urls (enrich channel).

End Bot.
End SingleChannelBot.


(** ** The vocabulary of the specification *)

Module Spec.

(** The text of [s] after the first occurrence of [marker]. *)
Definition text_after (marker s : string) : string :=
  match PyStr.partition marker s with
  | Some (_, rest) => rest
  | None => EmptyString
  end.

(** The text of [s] up to the first occurrence of [stop], or all of [s]
    when [stop] does not occur. *)
Definition text_upto (stop s : string) : string :=
  match PyStr.partition stop s with
  | Some (before, _) => before
  | None => s
  end.

(** The identifier as the specification words it: the text between the
    marker and the next [stop], or the end of the string. *)
Definition between (marker stop url : string) : string :=
  text_upto stop (text_after marker url).

Definition video_id_as_specified (url : string) : option string :=
  if PyStr.contains "watch?v=" url then Some (between "watch?v=" "&" url)
  else if PyStr.contains "/shorts/" url then Some (between "/shorts/" "?" url)
  else if PyStr.contains "youtu.be/" url then Some (between "youtu.be/" "?" url)
  else None.

(** The text between the marker and whichever comes first of the next
    [stop], the next occurrence of the marker, and the end of the string. *)
Definition between_markers (marker stop url : string) : string :=
  text_upto stop (text_upto marker (text_after marker url)).

(** The phrasings of the price replies. *)
Definition live_phrase (company ticker price currency : string) : string :=
  company +:+ " (" +:+ ticker +:+ ") is currently trading at "
  +:+ price +:+ " " +:+ currency.

Definition pre_market_phrase (company ticker price currency : string) : string :=
  company +:+ " (" +:+ ticker +:+ ") is trading at "
  +:+ price +:+ " " +:+ currency +:+ " in pre-market trading.".

Definition after_hours_phrase (company ticker price currency : string) : string :=
  company +:+ " (" +:+ ticker +:+ ") is trading at "
  +:+ price +:+ " " +:+ currency +:+ " in after-hours trading.".

Definition closed_phrase (company ticker price currency : string) : string :=
  company +:+ " (" +:+ ticker +:+ ") closed at "
  +:+ price +:+ " " +:+ currency +:+ " on the last trading day.".

(** The value a provider response holds for a price tier; [PyNone] when the
    key is not set. *)
Definition tier (d : gmap string pyval) (key : string) : pyval :=
  default PyNone (d !! key).

(** The display name, falling back to the symbol, and the currency, falling
    back to [N/A]. *)
Definition company_of (d : gmap string pyval) (ticker : string) : string :=
  format (default (PyStr ticker) (d !! "longName")).

Definition currency_of (d : gmap string pyval) : string :=
  format (default (PyStr "N/A") (d !! "currency")).

(** The classification of [on_pubmsg]: the video strategy applies. *)
Definition is_video (url : string) : bool :=
  PyStr.contains "youtube.com" url || PyStr.contains "youtu.be" url.

(** The page fetched for a video identifier. *)
Definition video_page (video_id : string) : string :=
  "https://www.youtube.com/watch?v=" +:+ video_id.

(** What [get_youtube_video_title] gives, by what the server does. *)
Definition video_title_result (s : site) : outcome (option string) :=
  match s with
  | Serves st page =>
      if requests.error_status st then Returns None
      else match title page with
           | None => Returns (Some "No Title Found")
           | Some None => Returns None
           | Some (Some text) =>
               Returns (Some (PyStr.strip (PyStr.replace "- YouTube" "" text)))
           end
  | Refuses => Returns None
  | Stalls => Blocks
  end.

(** The title and the description of a page, with their fallbacks. *)
Definition title_or_fallback (page : document) : string :=
  match title page with
  | Some (Some text) => PyStr.strip text
  | _ => "No Title"
  end.

Definition description_or_fallback (page : document) : string :=
  match meta_description page with
  | Some (Some content) => PyStr.strip content
  | _ => "No Description"
  end.

(** What [get_webpage_description] gives, by what the server does. *)
Definition page_description_result (s : site) : outcome (option string) :=
  match s with
  | Serves st page =>
      if requests.error_status st then Returns None
      else match title page, meta_description page with
           | Some None, _ | _, Some None => Returns None
           | _, _ =>
               Returns (Some ("Title: " +:+ title_or_fallback page
                              +:+ ", Description: " +:+ description_or_fallback page))
           end
  | Refuses | Stalls => Returns None
  end.

(** The lines a trace sends, as (channel, text) pairs. *)
Definition reply_of (ev : event) : option (string * string) :=
  match ev with
  | Privmsg channel text => Some (channel, text)
  | _ => None
  end.

Definition replies (calls : list event) : list (string * string) :=
  omap reply_of calls.

(** Runs put one after the other: the calls follow each other until a run
    does not return. *)
Fixpoint sequence_runs (runs : list (list event * outcome unit))
  : list event * outcome unit :=
  match runs with
  | [] => ([], Returns ())
  | (calls, Returns _) :: rest =>
      (calls ++ (sequence_runs rest).1, (sequence_runs rest).2)
  | (calls, o) :: _ => (calls, o)
  end.

End Spec.

(** ** Worlds used in the examples *)

Module Examples.

Definition no_page : document := {| title := None; meta_description := None |}.

(** A provider response with a previous close and no other price. *)
Definition aapl_closed : gmap string pyval :=
  {[ "regularMarketPreviousClose" := PyFloat "189.84";
     "longName" := PyStr "Apple Inc.";
     "currency" := PyStr "USD" ]}.

(** The provider knows AAPL by its previous close only, and raises for any
    other symbol; no server answers. *)
Definition after_close : world := {|
  yf_info := fun symbol =>
    if String.eqb symbol "AAPL" then InfoDict aapl_closed
    else InfoRaises ProviderError;
  web := fun _ => Refuses
|}.

(** Every server answers 200 with a page that has no title element and no
    description tag. *)
Definition untitled : world := {|
  yf_info := fun _ => InfoRaises ProviderError;
  web := fun _ => Serves 200 no_page
|}.

(** Every server answers 200 with a page whose title element is empty. *)
Definition empty_title : world := {|
  yf_info := fun _ => InfoRaises ProviderError;
  web := fun _ =>
    Serves 200 {| title := Some None;
                  meta_description := Some (Some "A description") |}
|}.

(** No server ever answers. *)
Definition stalled : world := {|
  yf_info := fun _ => InfoRaises ProviderError;
  web := fun _ => Stalls
|}.

(** One page is served, with a title and a description; every other
    request fails. *)
Definition one_page : world := {|
  yf_info := fun _ => InfoRaises ProviderError;
  web := fun url =>
    if String.eqb url "http://example.org/a" then
      Serves 200 {| title := Some (Some " A page ");
                    meta_description := Some (Some "About A") |}
    else Refuses
|}.

(** The watch pages never answer; one other page is served, and every
    other request fails. *)
Definition mixed : world := {|
  yf_info := fun _ => InfoRaises ProviderError;
  web := fun url =>
    if PyStr.startswith url "https://www.youtube.com/watch?v=" then Stalls
    else web one_page url
|}.

End Examples.

(** ** Connecting: [__init__] and [on_welcome] *)

Module Welcome.

(** What [__init__] keeps: [self.channel], [self.nickserv_password], and
    the arguments it hands to [SingleServerIRCBot.__init__]: the server
    list [[(server, port)]], the nickname and the real name. *)
Record bot := {
  channel : string;
  nickserv_password : option string;
  server_list : list (string * Z);
  nickname : string;
  realname : string
}.

(** [SingleChannelBot(channel, nickname, server, port, nickserv_password)];
    [port] is [None] when the argument is left out, and a password left
    out is the password [None]. *)
Definition init (channel nickname server : string) (port : option Z)
    (nickserv_password : option string) : bot :=
  {| channel := channel;
     nickserv_password := nickserv_password;
     server_list := [(server, default 6667%Z port)];
     nickname := nickname;
     realname := nickname |}.

(** The calls [on_welcome] makes on the connection [c]. *)
Inductive irc_call :=
  | Send (line : string)       (* c.send(line) *)
  | Join (channel : string).   (* c.join(channel) *)

(** The statements of a block, one call each: the calls follow each other
    until one does not return; [c] tells how each call ends. *)
Fixpoint perform (c : irc_call -> outcome unit) (calls : list irc_call)
  : list irc_call * outcome unit :=
  match calls with
  | [] => ([], Returns ())
  | call :: rest =>
      match c call with
      | Returns _ => (call :: (perform c rest).1, (perform c rest).2)
      | o => ([call], o)
      end
  end.

Definition on_welcome (self : bot) (c : irc_call -> outcome unit)
  : list irc_call * outcome unit :=
  perform c
    (match nickserv_password self with
     | Some password =>
         if PyStr.truthy password
         then [Send ("PRIVMSG NickServ :IDENTIFY " +:+ password)]
         else []
     | None => []
     end
     ++ [Join (channel self)]).

End Welcome.

(** ** What a run can be observed to do *)

Module Observe.

(** The requests of a trace, as (URL, timeout) pairs. *)
Definition request_of (ev : event) : option (string * option Z) :=
  match ev with
  | HttpGet url timeout => Some (url, timeout)
  | _ => None
  end.

Definition requests_made (calls : list event) : list (string * option Z) :=
  omap request_of calls.

(** The symbols the provider is asked for. *)
Definition symbol_of (ev : event) : option string :=
  match ev with
  | TickerInfo symbol => Some symbol
  | _ => None
  end.

Definition symbols_asked (calls : list event) : list string :=
  omap symbol_of calls.

(** What a call made while enriching [url] for [channel] can be: a line
    to [channel] with one of the two labels; the request of a page that
    is not a video, as [url] is written, with the timeout; or the request
    of the watch page of the identifier of a video [url], without one. *)
Definition pass_event (channel url : string) (ev : event) : Prop :=
  match ev with
  | Privmsg target text =>
      target = channel
      /\ (PyStr.startswith text "YouTube Title: " = true
          \/ PyStr.startswith text "Page Info: Title: " = true)
  | TickerInfo _ => False
  | HttpGet fetched timeout =>
      (Spec.is_video url = false /\ fetched = url /\ timeout = Some 10%Z)
      \/ (Spec.is_video url = true /\ timeout = None
          /\ exists video_id,
               SingleChannelBot.get_youtube_video_id url = Some video_id
               /\ PyStr.truthy video_id = true
               /\ fetched = Spec.video_page video_id)
  end.

(** No whitespace in front. *)
Definition starts_clean (s : string) : Prop :=
  match s with
  | EmptyString => True
  | String c _ => PyStr.isspace c = false
  end.

(** Every server answers 200 with a page whose title is only the site
    suffix. *)
Definition suffix_only : world := {|
  yf_info := fun _ => InfoRaises ProviderError;
  web := fun _ =>
    Serves 200 {| title := Some (Some " - YouTube ");
                  meta_description := None |}
|}.

(** A provider response with a regular price and nothing else. *)
Definition price_only : gmap string pyval :=
  {[ "regularMarketPrice" := PyInt 12 ]}.

(** The provider answers every symbol with [price_only]. *)
Definition bare_quotes : world := {|
  yf_info := fun _ => InfoDict price_only;
  web := fun _ => Refuses
|}.

(** A connection on which every call returns. *)
Definition obliging (call : Welcome.irc_call) : outcome unit := Returns ().

End Observe.

(** ** Facts about the string methods *)

Module PyStrFacts.
Import PyStr.

Lemma prefix_empty (sep : string) :
  sep ≠ EmptyString -> String.prefix sep EmptyString = false.
Proof. destruct sep; [congruence | reflexivity]. Qed.

Lemma split_from_skip (sep : string) (k : nat) :
  forall s, split_from sep s k = split_from sep (drop k s) 0.
Proof.
  induction k as [|k IH]; intros s.
  - reflexivity.
  - destruct s as [|c s]; [reflexivity | apply IH].
Qed.

(** [split] follows the occurrences found by [partition], one at a time. *)
Lemma split_partition (sep : string) :
  sep ≠ EmptyString ->
  forall s, split sep s =
            match partition sep s with
            | None => [s]
            | Some (a, b) => a :: split sep b
            end.
Proof.
  intros Hsep s. unfold split. induction s as [|c s IH].
  - cbn [split_from partition]. rewrite (prefix_empty _ Hsep). reflexivity.
  - cbn [split_from partition].
    destruct (String.prefix sep (String c s)) eqn:Hp.
    + rewrite split_from_skip. f_equal.
      destruct sep as [|c0 sep]; [congruence|].
      simpl. rewrite Nat.sub_0_r. reflexivity.
    + rewrite IH. destruct (partition sep s) as [[a b]|]; reflexivity.
Qed.

Lemma contains_partition (sep s : string) :
  contains sep s = true <-> is_Some (partition sep s).
Proof.
  induction s as [|c s IH].
  - cbn [contains partition].
    destruct (String.prefix sep ""); simpl; split; eauto.
    + discriminate.
    + intros [? ?]; discriminate.
  - cbn [contains partition].
    destruct (String.prefix sep (String c s)); simpl.
    + split; eauto.
    + rewrite IH. destruct (partition sep s) as [[a b]|]; split; eauto.
      all: intros [? ?]; discriminate.
Qed.

Lemma split_length (sep s : string) :
  sep ≠ EmptyString ->
  1 <= length (split sep s)
  /\ (contains sep s = true -> 2 <= length (split sep s)).
Proof.
  intros Hsep. rewrite (split_partition _ Hsep).
  pose proof (contains_partition sep s) as Hc.
  destruct (partition sep s) as [[a b]|].
  - rewrite (split_partition _ Hsep).
    destruct (partition sep b) as [[a' b']|]; cbn [length]; split; intros; lia.
  - split; [cbn; lia|]. intros H. apply Hc in H as [? ?]. discriminate.
Qed.

(** The tokens of [words] are not empty and hold no whitespace. *)
Lemma words_tokens (s : string) :
  Forall (fun token => truthy token = true /\ has_space token = false) (words s).
Proof.
  induction s as [|c s IH]; cbn [words]; [constructor|].
  destruct (isspace c) eqn:Hc; [exact IH|].
  destruct s as [|c' s].
  - constructor; [|constructor]. cbn. rewrite Hc. split; reflexivity.
  - destruct (isspace c') eqn:Hc'.
    + constructor; [|exact IH]. cbn. rewrite Hc. split; reflexivity.
    + destruct (words (String c' s)) as [|h t]; cbn [cons_head].
      * constructor; [|constructor]. cbn. rewrite Hc. split; reflexivity.
      * inversion IH as [|? ? [_ Hh] Ht]; subst.
        constructor; [|exact Ht]. cbn. rewrite Hc, Hh. split; reflexivity.
Qed.

End PyStrFacts.

(** ** Video identifiers *)

Section VideoId.
Import PyStr PyStrFacts Spec SingleChannelBot.

Lemma second_piece (marker url : string) :
  marker ≠ EmptyString ->
  contains marker url = true ->
  item (split marker url) 1 = text_upto marker (text_after marker url).
Proof.
  intros Hm Hc. apply contains_partition in Hc as [[a b] Hab].
  unfold text_after, text_upto. rewrite (split_partition _ Hm), Hab.
  cbn [item nth]. rewrite (split_partition _ Hm).
  destruct (partition marker b) as [[a' b']|]; reflexivity.
Qed.

Lemma first_piece (stop s : string) :
  stop ≠ EmptyString -> item (split stop s) 0 = text_upto stop s.
Proof.
  intros Hs. unfold text_upto. rewrite (split_partition _ Hs).
  destruct (partition stop s) as [[a b]|]; reflexivity.
Qed.

Lemma piece_between (marker stop url : string) :
  marker ≠ EmptyString -> stop ≠ EmptyString ->
  contains marker url = true ->
  item (split stop (item (split marker url) 1)) 0 = between_markers marker stop url.
Proof.
  intros Hm Hs Hc. rewrite (second_piece _ _ Hm Hc), (first_piece _ _ Hs).
  reflexivity.
Qed.

(** C4, as amended: the rules are tried in the order [watch?v=],
    [/shorts/], [youtu.be/] and the first marker the URL contains decides;
    the identifier is the text after the first occurrence of that marker,
    up to whichever comes first of the next [&] (for [watch?v=]) or [?]
    (for the other two), the next occurrence of the same marker, and the
    end of the string; a URL with none of the markers has no identifier.
    The three URLs of the specification yield [ABC123], [XYZ789] and
    [Q1W2E3]. *)
Theorem video_id_rules :
  (forall url,
     get_youtube_video_id url =
       if contains "watch?v=" url then Some (between_markers "watch?v=" "&" url)
       else if contains "/shorts/" url then Some (between_markers "/shorts/" "?" url)
       else if contains "youtu.be/" url then Some (between_markers "youtu.be/" "?" url)
       else None)
  /\ get_youtube_video_id "https://www.youtube.com/watch?v=ABC123&t=5" = Some "ABC123"
  /\ get_youtube_video_id "https://www.youtube.com/shorts/XYZ789?feature=share" = Some "XYZ789"
  /\ get_youtube_video_id "youtu.be/Q1W2E3" = Some "Q1W2E3".
Proof.
  split; [|repeat split; reflexivity].
  intros url. unfold get_youtube_video_id.
  destruct (contains "watch?v=" url) eqn:H1.
  { rewrite piece_between; [reflexivity|discriminate..|assumption]. }
  destruct (contains "/shorts/" url) eqn:H2.
  { rewrite piece_between; [reflexivity|discriminate..|assumption]. }
  destruct (contains "youtu.be/" url) eqn:H3.
  { rewrite piece_between; [reflexivity|discriminate..|assumption]. }
  reflexivity.
Qed.

(** C4, as stated, fails on a URL in which the marker occurs twice before
    any [&]: the code stops at the second occurrence of the marker. *)
Lemma video_id_repeated_marker :
  get_youtube_video_id "https://www.youtube.com/watch?v=ABC123watch?v=XYZ789" = Some "ABC123"
  /\ video_id_as_specified "https://www.youtube.com/watch?v=ABC123watch?v=XYZ789"
     = Some "ABC123watch?v=XYZ789"
  /\ get_youtube_video_id "https://www.youtube.com/watch?v=ABC123watch?v=XYZ789"
     ≠ video_id_as_specified "https://www.youtube.com/watch?v=ABC123watch?v=XYZ789".
Proof. repeat split; try reflexivity. vm_compute. discriminate. Qed.

End VideoId.

(** ** The stock command *)

(** Unfolds the operations of [M]. *)
Ltac step_M :=
  cbv [run mbind M_bind mret M_ret try_except raise emit
       SingleChannelBot.privmsg SingleChannelBot.Ticker_info
       SingleChannelBot.info_get].

Section Stock.
Import PyStr PyStrFacts Spec SingleChannelBot.
Context (w : world).

Lemma append_inv_head (a b c : string) : a +:+ b = a +:+ c -> b = c.
Proof. induction a as [|x a IH]; simpl; intros H; [assumption|]. injection H. exact IH. Qed.

Lemma is_none_true (v : pyval) : is_none v = true -> v = PyNone.
Proof. destruct v; [reflexivity|discriminate..]. Qed.

Lemma is_none_false (v : pyval) : is_none v = false -> v ≠ PyNone.
Proof. destruct v; [discriminate|congruence..]. Qed.

Lemma closed_is_not_live (company ticker price price' currency : string) :
  closed_phrase company ticker price currency
  ≠ live_phrase company ticker price' currency.
Proof.
  unfold closed_phrase, live_phrase. intros H.
  do 3 apply append_inv_head in H. discriminate H.
Qed.

(** C1: with a provider response [d], the reply is decided by the first
    tier that holds a value, in the order regular, pre-market, after-hours,
    previous close: the live phrasing when a regular price is set; the
    "closed at ... on the last trading day" phrasing, and not the live
    phrasing whatever the price, when only a previous close is set; and
    "No price data available for ticker: <symbol>" when no tier is set. *)
Theorem price_tier_fallback (ticker : string) (d : gmap string pyval) :
  yf_info w ticker = InfoDict d ->
  exists reply,
    run (get_stock_price w ticker) = ([TickerInfo ticker], Returns reply)
    /\ (tier d "regularMarketPrice" ≠ PyNone ->
        reply = live_phrase (company_of d ticker) ticker
                  (format (tier d "regularMarketPrice")) (currency_of d))
    /\ (tier d "regularMarketPrice" = PyNone ->
        tier d "preMarketPrice" ≠ PyNone ->
        reply = pre_market_phrase (company_of d ticker) ticker
                  (format (tier d "preMarketPrice")) (currency_of d))
    /\ (tier d "regularMarketPrice" = PyNone ->
        tier d "preMarketPrice" = PyNone ->
        tier d "postMarketPrice" ≠ PyNone ->
        reply = after_hours_phrase (company_of d ticker) ticker
                  (format (tier d "postMarketPrice")) (currency_of d))
    /\ (tier d "regularMarketPrice" = PyNone ->
        tier d "preMarketPrice" = PyNone ->
        tier d "postMarketPrice" = PyNone ->
        tier d "regularMarketPreviousClose" ≠ PyNone ->
        reply = closed_phrase (company_of d ticker) ticker
                  (format (tier d "regularMarketPreviousClose")) (currency_of d)
        /\ forall price,
             reply ≠ live_phrase (company_of d ticker) ticker price (currency_of d))
    /\ (tier d "regularMarketPrice" = PyNone ->
        tier d "preMarketPrice" = PyNone ->
        tier d "postMarketPrice" = PyNone ->
        tier d "regularMarketPreviousClose" = PyNone ->
        reply = "No price data available for ticker: " +:+ ticker).
Proof.
  intros Hd. unfold get_stock_price. step_M. rewrite Hd. cbn [app].
  fold (tier d "regularMarketPrice") (tier d "preMarketPrice")
       (tier d "postMarketPrice") (tier d "regularMarketPreviousClose")
       (company_of d ticker) (currency_of d).
  destruct (is_none (tier d "regularMarketPrice")) eqn:E1.
  2:{ eexists; split; [reflexivity|].
      apply is_none_false in E1. repeat split; intros; congruence. }
  apply is_none_true in E1.
  destruct (is_none (tier d "preMarketPrice")) eqn:E2; cbn [negb].
  2:{ eexists; split; [reflexivity|].
      apply is_none_false in E2. repeat split; intros; congruence. }
  apply is_none_true in E2.
  destruct (is_none (tier d "postMarketPrice")) eqn:E3; cbn [negb].
  2:{ eexists; split; [reflexivity|].
      apply is_none_false in E3. repeat split; intros; congruence. }
  apply is_none_true in E3.
  destruct (is_none (tier d "regularMarketPreviousClose")) eqn:E4; cbn [negb].
  2:{ eexists; split; [reflexivity|].
      apply is_none_false in E4. repeat split; intros; try congruence.
      apply closed_is_not_live. }
  apply is_none_true in E4.
  eexists; split; [reflexivity|]. repeat split; intros; congruence.
Qed.

Lemma truthy_append_r (a b : string) : truthy b = true -> truthy (a +:+ b) = true.
Proof. destruct a; [trivial | reflexivity]. Qed.

Lemma truthy_nonempty (s : string) : truthy s = true <-> s ≠ EmptyString.
Proof. destruct s; simpl; split; congruence. Qed.

(** [get_stock_price] asks the provider once and returns a string that is
    not empty, whatever the provider does. *)
Lemma get_stock_price_returns (ticker : string) (t : list event) :
  exists reply,
    get_stock_price w ticker t = (t ++ [TickerInfo ticker], Returns reply)
    /\ truthy reply = true.
Proof.
  unfold get_stock_price. step_M.
  destruct (yf_info w ticker) as [d| |e]; try (eexists; split; reflexivity).
  destruct (is_none (default PyNone (d !! "regularMarketPrice")));
    [destruct (is_none (default PyNone (d !! "preMarketPrice")));
       [destruct (is_none (default PyNone (d !! "postMarketPrice")));
          [destruct (is_none (default PyNone (d !! "regularMarketPreviousClose")))|]|]|];
    cbn [negb]; eexists; (split; [reflexivity|]);
    solve [reflexivity | apply truthy_append_r; reflexivity].
Qed.

(** When the provider gives anything but a dictionary, the reply is the
    error text. *)
Lemma get_stock_price_error (ticker : string) (t : list event) :
  (forall d, yf_info w ticker ≠ InfoDict d) ->
  get_stock_price w ticker t =
    (t ++ [TickerInfo ticker],
     Returns ("Error fetching data for ticker: " +:+ ticker
              +:+ ". Please try again later.")).
Proof.
  intros Hno. unfold get_stock_price. step_M.
  destruct (yf_info w ticker) as [d| |e] eqn:E; [|reflexivity..].
  exfalso. exact (Hno d eq_refl).
Qed.

(** A command of two tokens: one lookup for the second token in upper
    case, then one line, the text [get_stock_price] returned. *)
Lemma handle_two_tokens (message channel cmd symbol : string) (t : list event) :
  words message = [cmd; symbol] ->
  exists reply,
    get_stock_price w (upper symbol) t
      = (t ++ [TickerInfo (upper symbol)], Returns reply)
    /\ truthy reply = true
    /\ handle_stock_command w message channel t
      = (t ++ [TickerInfo (upper symbol); Privmsg channel reply], Returns ()).
Proof.
  intros Hw.
  destruct (get_stock_price_returns (upper symbol) t) as (reply & Hrun & Hne).
  exists reply. split; [exact Hrun|]. split; [exact Hne|].
  unfold handle_stock_command. rewrite Hw. cbn [length Nat.eqb item nth].
  step_M. rewrite Hrun, Hne. rewrite <- app_assoc. reflexivity.
Qed.

Lemma handle_other_shape (message channel : string) (t : list event) :
  length (words message) ≠ 2 ->
  handle_stock_command w message channel t
    = (t ++ [Privmsg channel "Usage: !stock TICKER"], Returns ()).
Proof.
  intros Hlen. unfold handle_stock_command.
  destruct (Nat.eqb_spec (length (words message)) 2) as [E|_]; [contradiction|].
  reflexivity.
Qed.

(** C3: for a command of two tokens, when the provider raises (or answers
    with something that is not a dictionary), [get_stock_price] catches the
    error and returns the error text for the symbol in upper case; the
    handler returns normally after one lookup and exactly one line, that
    text; and so does the dispatcher for such a message. *)
Theorem provider_error_reply (message channel cmd symbol : string) :
  words message = [cmd; symbol] ->
  (forall d, yf_info w (upper symbol) ≠ InfoDict d) ->
  let text := "Error fetching data for ticker: " +:+ upper symbol
              +:+ ". Please try again later." in
  run (get_stock_price w (upper symbol))
    = ([TickerInfo (upper symbol)], Returns text)
  /\ run (handle_stock_command w message channel)
    = ([TickerInfo (upper symbol); Privmsg channel text], Returns ())
  /\ (startswith message "!stock" = true ->
      run (on_pubmsg w message channel)
      = ([TickerInfo (upper symbol); Privmsg channel text], Returns ())).
Proof.
  intros Hw Hno text.
  assert (Hh : run (handle_stock_command w message channel)
               = ([TickerInfo (upper symbol); Privmsg channel text], Returns ())).
  { unfold run.
    destruct (handle_two_tokens message channel cmd symbol [] Hw)
      as (reply & Hrun & _ & Hh).
    rewrite (get_stock_price_error _ _ Hno) in Hrun.
    injection Hrun as <-. exact Hh. }
  split; [exact (get_stock_price_error _ [] Hno)|].
  split; [exact Hh|].
  intros Hp. unfold on_pubmsg. rewrite Hp. exact Hh.
Qed.

(** C5: a message handed to the stock handler that does not split into
    exactly two tokens gets the one line "Usage: !stock TICKER", and the
    provider is not called. *)
Theorem usage_reply (message channel : string) :
  length (words message) ≠ 2 ->
  run (handle_stock_command w message channel)
    = ([Privmsg channel "Usage: !stock TICKER"], Returns ())
  /\ forall symbol,
       TickerInfo symbol ∉ (run (handle_stock_command w message channel)).1.
Proof.
  intros Hlen. unfold run. rewrite (handle_other_shape _ _ [] Hlen).
  split; [reflexivity|]. intros symbol Hin.
  apply list_elem_of_singleton in Hin. discriminate Hin.
Qed.

(** C9: a message whose text starts with [!stock] is handled by the stock
    handler, whatever follows the prefix; no page is fetched for it; and
    when it has exactly two tokens the provider is asked for the second
    one in upper case and one line is sent. *)
Theorem stock_prefix_routing (message channel : string) :
  startswith message "!stock" = true ->
  run (on_pubmsg w message channel) = run (handle_stock_command w message channel)
  /\ (forall url timeout,
        HttpGet url timeout ∉ (run (on_pubmsg w message channel)).1)
  /\ (forall cmd symbol,
        words message = [cmd; symbol] ->
        exists reply,
          run (on_pubmsg w message channel)
          = ([TickerInfo (upper symbol); Privmsg channel reply], Returns ())).
Proof.
  intros Hp.
  assert (Hroute : on_pubmsg w message channel = handle_stock_command w message channel).
  { unfold on_pubmsg. rewrite Hp. reflexivity. }
  rewrite Hroute. split; [reflexivity|]. split.
  - intros url timeout Hin. unfold run in Hin.
    destruct (Nat.eq_dec (length (words message)) 2) as [E|E].
    + destruct (words message) as [|cmd [|symbol [|? ?]]] eqn:Hw; try discriminate E.
      destruct (handle_two_tokens message channel cmd symbol [] Hw)
        as (reply & _ & _ & Hh).
      rewrite Hh in Hin. cbn [fst app] in Hin.
      apply elem_of_cons in Hin as [Hin|Hin]; [discriminate Hin|].
      apply list_elem_of_singleton in Hin. discriminate Hin.
    + rewrite (handle_other_shape _ _ [] E) in Hin.
      apply list_elem_of_singleton in Hin. discriminate Hin.
  - intros cmd symbol Hw.
    destruct (handle_two_tokens message channel cmd symbol [] Hw)
      as (reply & _ & _ & Hh).
    exists reply. exact Hh.
Qed.

(** C10: whatever the provider does, [get_stock_price] returns a string
    that is not empty, so the test [if stock_info] of the handler never
    fails: a command of two tokens sends exactly one line, the string
    [get_stock_price] returned, and the "Could not retrieve data" branch
    is never taken. *)
Theorem stock_reply_never_missing :
  (forall ticker,
     exists reply,
       run (get_stock_price w ticker) = ([TickerInfo ticker], Returns reply)
       /\ truthy reply = true /\ reply ≠ EmptyString)
  /\ (forall message channel cmd symbol,
        words message = [cmd; symbol] ->
        exists reply,
          run (get_stock_price w (upper symbol))
            = ([TickerInfo (upper symbol)], Returns reply)
          /\ truthy reply = true
          /\ run (handle_stock_command w message channel)
            = ([TickerInfo (upper symbol); Privmsg channel reply], Returns ())).
Proof.
  split.
  - intros ticker.
    destruct (get_stock_price_returns ticker []) as (reply & Hrun & Hne).
    exists reply. split; [exact Hrun|]. split; [exact Hne|].
    apply truthy_nonempty. exact Hne.
  - intros message channel cmd symbol Hw.
    exact (handle_two_tokens message channel cmd symbol [] Hw).
Qed.

End Stock.

(** ** Link enrichment *)

Section Enrichment.
Import PyStr PyStrFacts Spec SingleChannelBot.
Context (w : world).


Lemma get_run (url : string) (timeout : option Z) (t : list event) :
  requests.get w url timeout t =
    (t ++ [HttpGet url timeout],
     match web w url with
     | Serves st page => Returns {| status_code_of := st; soup_of := page |}
     | Refuses => Raises ConnectionError
     | Stalls => if timeout is Some _ then Raises Timeout else Blocks
     end).
Proof.
  unfold requests.get. step_M.
  destruct (web w url); [reflexivity..|]. destruct timeout; reflexivity.
Qed.

Lemma video_title_run (video_id : string) (t : list event) :
  get_youtube_video_title w video_id t =
    (t ++ [HttpGet (video_page video_id) None],
     video_title_result (web w (video_page video_id))).
Proof.
  unfold get_youtube_video_title, try_except, mbind, M_bind.
  rewrite get_run. fold (video_page video_id).
  unfold video_title_result, requests.raise_for_status.
  destruct (web w (video_page video_id)) as [st page| |]; [|reflexivity..].
  cbn [status_code_of soup_of]. destruct (requests.error_status st); [reflexivity|].
  destruct (title page) as [[s|]|]; reflexivity.
Qed.

Lemma page_description_run (url : string) (t : list event) :
  get_webpage_description w url t =
    (t ++ [HttpGet url (Some 10%Z)], page_description_result (web w url)).
Proof.
  unfold get_webpage_description, try_except, mbind, M_bind.
  rewrite get_run.
  unfold page_description_result, requests.raise_for_status,
    title_or_fallback, description_or_fallback.
  destruct (web w url) as [st page| |]; [|reflexivity..].
  cbn [status_code_of soup_of]. destruct (requests.error_status st); [reflexivity|].
  destruct (title page) as [[s|]|]; try reflexivity;
    destruct (meta_description page) as [[c|]|]; reflexivity.
Qed.

(** The calls of one pass of the loop body do not depend on the calls made
    before it. *)
Lemma enrich_frame (channel url : string) (t : list event) :
  enrich w channel url t =
    (t ++ (run (enrich w channel url)).1, (run (enrich w channel url)).2).
Proof.
  unfold run, enrich.
  destruct (contains "youtube.com" url || contains "youtu.be" url).
  - destruct (get_youtube_video_id url) as [vid|]; cbn [when_truthy];
      [destruct (truthy vid)|]; try (cbn; rewrite app_nil_r; reflexivity).
    unfold mbind, M_bind. rewrite !video_title_run.
    destruct (video_title_result _) as [[title|]| |]; cbn [when_truthy];
      [destruct (truthy title)|..]; step_M; cbn [fst snd app];
      rewrite <- ?app_assoc; reflexivity.
  - unfold mbind, M_bind. rewrite !page_description_run.
    destruct (page_description_result _) as [[description|]| |]; cbn [when_truthy];
      [destruct (truthy description)|..]; step_M; cbn [fst snd app];
      rewrite <- ?app_assoc; reflexivity.
Qed.

(** One pass of the loop body never raises and sends at most one line. *)
Lemma enrich_quiet (channel url : string) :
  (forall e, (run (enrich w channel url)).2 ≠ Raises e)
  /\ length (replies (run (enrich w channel url)).1) <= 1.
Proof.
  unfold run, enrich.
  destruct (contains "youtube.com" url || contains "youtu.be" url).
  - destruct (get_youtube_video_id url) as [vid|]; cbn [when_truthy];
      [destruct (truthy vid)|]; try (cbn; split; [discriminate|lia]).
    unfold mbind, M_bind. rewrite !video_title_run.
    destruct (video_title_result _) as [[title|]|e|] eqn:E; cbn [when_truthy];
      [destruct (truthy title)|..]; try (cbn; split; [discriminate|lia]).
    exfalso. unfold video_title_result in E. repeat case_match; discriminate.
  - unfold mbind, M_bind. rewrite !page_description_run.
    destruct (page_description_result _) as [[description|]|e|] eqn:E;
      cbn [when_truthy];
      [destruct (truthy description)|..]; try (cbn; split; [discriminate|lia]).
    all: exfalso; unfold page_description_result in E;
      repeat case_match; discriminate.
Qed.

(** The loop of [on_pubmsg]: the passes run one after the other, each on
    its own, until one blocks. *)
Lemma for_each_enrich (channel : string) (urls : list string) (t : list event) :
  for_each urls (enrich w channel) t =
    (t ++ (sequence_runs (map (fun u => run (enrich w channel u)) urls)).1,
     (sequence_runs (map (fun u => run (enrich w channel u)) urls)).2).
Proof.
  revert t. induction urls as [|u urls IH]; intros t.
  - cbn. rewrite app_nil_r. reflexivity.
  - cbn [for_each map sequence_runs]. unfold mbind, M_bind.
    rewrite enrich_frame.
    destruct (enrich_quiet channel u) as [Hraise _].
    destruct (run (enrich w channel u)) as [calls [[]|e|]]; cbn [fst snd] in *.
    + rewrite IH. destruct (sequence_runs _) as [calls' o']. cbn [fst snd].
      rewrite app_assoc. reflexivity.
    + exfalso. exact (Hraise e eq_refl).
    + reflexivity.
Qed.

Lemma for_each_app {A : Type} (l1 l2 : list A) (body : A -> M unit) (t : list event) :
  for_each (l1 ++ l2) body t = (for_each l1 body;; for_each l2 body) t.
Proof.
  revert t. induction l1 as [|x l1 IH]; intros t; [reflexivity|].
  cbn [app for_each]. unfold mbind, M_bind in *.
  destruct (body x t) as [t' [[]|e|]]; [apply IH|reflexivity..].
Qed.

Lemma sequence_runs_no_raise (runs : list (list event * outcome unit)) :
  (forall r e, r ∈ runs -> r.2 ≠ Raises e) ->
  forall e, (sequence_runs runs).2 ≠ Raises e.
Proof.
  induction runs as [|[calls o] runs IH]; intros Hr e.
  - discriminate.
  - destruct o as [[]|e'|]; cbn [sequence_runs snd].
    + apply IH. intros r e0 Hin. apply Hr, elem_of_cons. right. exact Hin.
    + exfalso. apply (Hr (calls, Raises e') e'); [|reflexivity].
      apply elem_of_cons. left. reflexivity.
    + discriminate.
Qed.

(** C7, as amended: in the video strategy, a fetched page with no title
    element yields the text "No Title Found", which is sent as the line
    "YouTube Title: No Title Found"; a fetched page whose title element
    has no text, like a request that fails or is answered with a 4xx or
    5xx status, yields an absent result and no line. *)
Theorem video_title_missing (channel url video_id : string) :
  is_video url = true ->
  get_youtube_video_id url = Some video_id ->
  truthy video_id = true ->
  let fetch := HttpGet (video_page video_id) None in
  (forall st page,
     web w (video_page video_id) = Serves st page ->
     requests.error_status st = false ->
     title page = None ->
     run (get_youtube_video_title w video_id)
       = ([fetch], Returns (Some "No Title Found"))
     /\ run (enrich w channel url)
       = ([fetch; Privmsg channel "YouTube Title: No Title Found"], Returns ()))
  /\ (forall st page,
        web w (video_page video_id) = Serves st page ->
        requests.error_status st = false ->
        title page = Some None ->
        run (get_youtube_video_title w video_id) = ([fetch], Returns None)
        /\ run (enrich w channel url) = ([fetch], Returns ()))
  /\ (web w (video_page video_id) = Refuses
      \/ (exists st page,
            web w (video_page video_id) = Serves st page
            /\ requests.error_status st = true) ->
      run (get_youtube_video_title w video_id) = ([fetch], Returns None)
      /\ run (enrich w channel url) = ([fetch], Returns ())).
Proof.
  intros Hv Hid Hne fetch.
  assert (Hpass : forall t, enrich w channel url t =
            (title ← get_youtube_video_title w video_id;
             when_truthy title (fun title =>
               privmsg channel ("YouTube Title: " +:+ title))) t).
  { intros t. unfold enrich. unfold is_video in Hv. rewrite Hv, Hid.
    cbn [when_truthy]. rewrite Hne. reflexivity. }
  unfold run. rewrite Hpass. unfold mbind, M_bind. rewrite video_title_run.
  unfold video_title_result. split; [|split].
  - intros st page -> -> ->. split; reflexivity.
  - intros st page -> -> ->. split; reflexivity.
  - intros [-> | (st & page & -> & ->)]; split; reflexivity.
Qed.

(** C8, as amended: in the generic-page strategy, for every successful
    fetch of a page that has either no title element or a title element
    with a text, and either no description tag or one with a [content]
    attribute, exactly one line is sent, made of the title (the literal
    "No Title" when there is no title element) and of the description
    (the literal "No Description" when there is no description tag). *)
Theorem page_info_reply (channel url : string) (st : Z) (page : document) :
  is_video url = false ->
  web w url = Serves st page ->
  requests.error_status st = false ->
  title page ≠ Some None ->
  meta_description page ≠ Some None ->
  let line := "Title: " +:+ title_or_fallback page
              +:+ ", Description: " +:+ description_or_fallback page in
  run (get_webpage_description w url)
    = ([HttpGet url (Some 10%Z)], Returns (Some line))
  /\ run (enrich w channel url)
    = ([HttpGet url (Some 10%Z); Privmsg channel ("Page Info: " +:+ line)],
       Returns ())
  /\ (title page = None -> title_or_fallback page = "No Title")
  /\ (forall text, title page = Some (Some text) ->
                   title_or_fallback page = strip text)
  /\ (meta_description page = None -> description_or_fallback page = "No Description")
  /\ (forall content, meta_description page = Some (Some content) ->
                      description_or_fallback page = strip content).
Proof.
  intros Hv Hweb Hst Ht Hm line.
  assert (Hres : page_description_result (web w url) = Returns (Some line)).
  { unfold page_description_result. rewrite Hweb, Hst.
    destruct (title page) as [[s|]|]; try congruence;
      destruct (meta_description page) as [[c|]|]; congruence || reflexivity. }
  split; [|split].
  - unfold run. rewrite page_description_run, Hres. reflexivity.
  - unfold run, enrich. unfold is_video in Hv. rewrite Hv.
    unfold mbind, M_bind. rewrite page_description_run, Hres. reflexivity.
  - unfold title_or_fallback, description_or_fallback.
    repeat split; intros; rewrite H; reflexivity.
Qed.

End Enrichment.

(** ** The claims at particular inputs *)

Section AtInputs.
Import PyStr Spec SingleChannelBot Examples.

(** C2: the code at an input where the property fails.  The message has
    a video token followed by the token of a page that is served.  The
    watch page never answers, and its request is made without a timeout:
    the dispatcher blocks at that request, and the page after it is
    neither requested nor answered, although on its own, or before the
    video token, it gets its request and its line. *)
Theorem stalled_video_suppresses_later_urls :
  extract_urls "https://youtu.be/Q1W2E3 http://example.org/a"
    = ["https://youtu.be/Q1W2E3"; "http://example.org/a"]
  /\ web mixed (video_page "Q1W2E3") = Stalls
  /\ run (on_pubmsg mixed "https://youtu.be/Q1W2E3 http://example.org/a" "#guns")
     = ([HttpGet "https://www.youtube.com/watch?v=Q1W2E3" None], Blocks)
  /\ run (on_pubmsg mixed "http://example.org/a" "#guns")
     = ([HttpGet "http://example.org/a" (Some 10%Z);
         Privmsg "#guns" "Page Info: Title: A page, Description: About A"],
        Returns ())
  /\ run (on_pubmsg mixed "http://example.org/a https://youtu.be/Q1W2E3" "#guns")
     = ([HttpGet "http://example.org/a" (Some 10%Z);
         Privmsg "#guns" "Page Info: Title: A page, Description: About A";
         HttpGet "https://www.youtube.com/watch?v=Q1W2E3" None],
        Blocks).
Proof. repeat split; reflexivity. Qed.

(** C6: the request for a video page is made without a timeout, for every
    world and every identifier, so that on a server that never answers
    the dispatcher blocks at that request, whereas the request for any
    other page is made with [timeout=10] and gives up. *)
Theorem video_fetch_has_no_timeout :
  (forall w video_id,
     (run (get_youtube_video_title w video_id)).1
     = [HttpGet (video_page video_id) None])
  /\ (forall w url,
        (run (get_webpage_description w url)).1 = [HttpGet url (Some 10%Z)])
  /\ run (on_pubmsg stalled "https://youtu.be/Q1W2E3" "#guns")
     = ([HttpGet "https://www.youtube.com/watch?v=Q1W2E3" None], Blocks)
  /\ run (on_pubmsg stalled "https://example.org/page" "#guns")
     = ([HttpGet "https://example.org/page" (Some 10%Z)], Returns ()).
Proof.
  split; [|split; [|split; reflexivity]].
  - intros w video_id. unfold run. rewrite video_title_run. reflexivity.
  - intros w url. unfold run. rewrite page_description_run. reflexivity.
Qed.

(** C7, as stated, fails on a video page without a title element: the
    result is the text "No Title Found" and a line is sent. *)
Lemma untitled_video_gets_a_line :
  web untitled (video_page "Q1W2E3") = Serves 200 no_page
  /\ title no_page = None
  /\ run (get_youtube_video_title untitled "Q1W2E3")
     = ([HttpGet "https://www.youtube.com/watch?v=Q1W2E3" None],
        Returns (Some "No Title Found"))
  /\ run (on_pubmsg untitled "https://youtu.be/Q1W2E3" "#guns")
     = ([HttpGet "https://www.youtube.com/watch?v=Q1W2E3" None;
         Privmsg "#guns" "YouTube Title: No Title Found"], Returns ()).
Proof. repeat split; reflexivity. Qed.

(** C8, as stated, fails on a page fetched with status 200 whose title
    element is empty: no line is sent. *)
Lemma empty_title_page_gets_no_line :
  web empty_title "http://example.org/" =
    Serves 200 {| title := Some None;
                  meta_description := Some (Some "A description") |}
  /\ run (get_webpage_description empty_title "http://example.org/")
     = ([HttpGet "http://example.org/" (Some 10%Z)], Returns None)
  /\ run (on_pubmsg empty_title "see http://example.org/" "#guns")
     = ([HttpGet "http://example.org/" (Some 10%Z)], Returns ())
  /\ replies (run (on_pubmsg empty_title "see http://example.org/" "#guns")).1 = [].
Proof. repeat split; reflexivity. Qed.

Lemma price_tier_fallback_witness :
  yf_info after_close "AAPL" = InfoDict aapl_closed
  /\ run (get_stock_price after_close "AAPL")
     = ([TickerInfo "AAPL"],
        Returns "Apple Inc. (AAPL) closed at 189.84 USD on the last trading day.").
Proof.
  split; [reflexivity|].
  destruct (price_tier_fallback after_close "AAPL" aapl_closed eq_refl)
    as (reply & Hrun & _ & _ & _ & Hclosed & _).
  destruct Hclosed as [Hreply _]; [reflexivity..|discriminate|].
  rewrite Hrun, Hreply. reflexivity.
Defined.

Lemma provider_error_reply_witness :
  words "!stock aapl" = ["!stock"; "aapl"]
  /\ (forall d, yf_info stalled (upper "aapl") ≠ InfoDict d)
  /\ run (on_pubmsg stalled "!stock aapl" "#guns")
     = ([TickerInfo "AAPL";
         Privmsg "#guns"
           "Error fetching data for ticker: AAPL. Please try again later."],
        Returns ()).
Proof.
  assert (Hraises : forall d, yf_info stalled (upper "aapl") ≠ InfoDict d)
    by (intros d; discriminate).
  split; [reflexivity|]. split; [exact Hraises|].
  destruct (provider_error_reply stalled "!stock aapl" "#guns" "!stock" "aapl"
              eq_refl Hraises) as (_ & _ & Hdispatch).
  exact (Hdispatch eq_refl).
Defined.

Lemma usage_reply_witness :
  length (words "!stock AAPL MSFT") ≠ 2
  /\ run (handle_stock_command after_close "!stock AAPL MSFT" "#guns")
     = ([Privmsg "#guns" "Usage: !stock TICKER"], Returns ()).
Proof.
  assert (Hshape : length (words "!stock AAPL MSFT") ≠ 2) by (vm_compute; lia).
  split; [exact Hshape|].
  exact (proj1 (usage_reply after_close "!stock AAPL MSFT" "#guns" Hshape)).
Defined.

Lemma video_title_missing_witness :
  is_video "https://youtu.be/Q1W2E3" = true
  /\ get_youtube_video_id "https://youtu.be/Q1W2E3" = Some "Q1W2E3"
  /\ run (enrich untitled "#guns" "https://youtu.be/Q1W2E3")
     = ([HttpGet (video_page "Q1W2E3") None;
         Privmsg "#guns" "YouTube Title: No Title Found"], Returns ()).
Proof.
  split; [reflexivity|]. split; [reflexivity|].
  destruct (video_title_missing untitled "#guns" "https://youtu.be/Q1W2E3" "Q1W2E3"
              eq_refl eq_refl eq_refl) as (Hnone & _).
  exact (proj2 (Hnone 200%Z no_page eq_refl eq_refl eq_refl)).
Defined.

Lemma page_info_reply_witness :
  is_video "http://example.org/a" = false
  /\ run (enrich one_page "#guns" "http://example.org/a")
     = ([HttpGet "http://example.org/a" (Some 10%Z);
         Privmsg "#guns" "Page Info: Title: A page, Description: About A"],
        Returns ()).
Proof.
  split; [reflexivity|].
  destruct (page_info_reply one_page "#guns" "http://example.org/a" 200%Z
              {| title := Some (Some " A page ");
                 meta_description := Some (Some "About A") |}
              eq_refl eq_refl eq_refl) as (_ & Hline & _);
    [discriminate..|].
  exact Hline.
Defined.

Lemma stock_prefix_routing_witness :
  startswith "!stocks aapl" "!stock" = true
  /\ exists reply,
       run (on_pubmsg after_close "!stocks aapl" "#guns")
       = ([TickerInfo "AAPL"; Privmsg "#guns" reply], Returns ()).
Proof.
  split; [reflexivity|].
  destruct (stock_prefix_routing after_close "!stocks aapl" "#guns" eq_refl)
    as (_ & _ & Hlookup).
  exact (Hlookup "!stocks" "aapl" eq_refl).
Defined.

Lemma stock_reply_never_missing_witness :
  words "!stock aapl" = ["!stock"; "aapl"]
  /\ exists reply,
       truthy reply = true
       /\ run (handle_stock_command after_close "!stock aapl" "#guns")
          = ([TickerInfo "AAPL"; Privmsg "#guns" reply], Returns ()).
Proof.
  split; [reflexivity|].
  destruct (proj2 (stock_reply_never_missing after_close)
              "!stock aapl" "#guns" "!stock" "aapl" eq_refl)
    as (reply & _ & Hne & Hrun).
  exists reply. split; [exact Hne | exact Hrun].
Defined.

End AtInputs.

(** ** More facts about the string methods *)

Module PyStrMore.
Import PyStr PyStrFacts Observe.

Lemma words_starts (c : ascii) (s : string) :
  isspace c = false -> words (String c s) ≠ [].
Proof.
  intros Hc. cbn [words]. rewrite Hc. destruct s as [|c' s]; [discriminate|].
  destruct (isspace c'); [discriminate|].
  destruct (words (String c' s)); discriminate.
Qed.

(** Splitting two texts joined by a whitespace character splits each. *)
Lemma words_join (sp : ascii) (a b : string) :
  isspace sp = true ->
  words (a +:+ String sp b) = words a ++ words b.
Proof.
  intros Hsp. induction a as [|c a IH].
  - change (words (String sp b) = words b). cbn [words]. rewrite Hsp. reflexivity.
  - change (String c a +:+ String sp b) with (String c (a +:+ String sp b)).
    cbn [words]. destruct (isspace c) eqn:Hc; [exact IH|].
    destruct a as [|c' a].
    + change ("" +:+ String sp b) with (String sp b) in *.
      cbv iota. rewrite Hsp, IH. reflexivity.
    + change (String c' a +:+ String sp b) with (String c' (a +:+ String sp b)) in *.
      cbv iota. destruct (isspace c') eqn:Hc'.
      * rewrite IH. reflexivity.
      * rewrite IH. pose proof (words_starts c' a Hc') as Hne.
        destruct (words (String c' a)); [congruence|reflexivity].
Qed.

Lemma upper_char_idem (c : ascii) : upper_char (upper_char c) = upper_char c.
Proof. destruct c as [[] [] [] [] [] [] [] []]; reflexivity. Qed.

Lemma upper_char_space (c : ascii) : isspace (upper_char c) = isspace c.
Proof. destruct c as [[] [] [] [] [] [] [] []]; reflexivity. Qed.

Lemma upper_idem (s : string) : upper (upper s) = upper s.
Proof.
  induction s as [|c s IH]; [reflexivity|].
  cbn [upper]. rewrite upper_char_idem, IH. reflexivity.
Qed.

Lemma upper_has_space (s : string) : has_space (upper s) = has_space s.
Proof.
  induction s as [|c s IH]; [reflexivity|].
  cbn [upper has_space]. rewrite upper_char_space, IH. reflexivity.
Qed.

Lemma upper_truthy (s : string) : truthy (upper s) = truthy s.
Proof. destruct s; reflexivity. Qed.

Lemma lstrip_starts_clean (s : string) : starts_clean (lstrip s).
Proof.
  induction s as [|c s IH]; [exact I|].
  cbn [lstrip]. destruct (isspace c) eqn:Hc; [exact IH | exact Hc].
Qed.

Lemma lstrip_clean (s : string) : starts_clean s -> lstrip s = s.
Proof. destruct s as [|c s]; [reflexivity|]. cbn. intros ->. reflexivity. Qed.

Lemma rstrip_cons (c : ascii) (s : string) :
  rstrip (String c s) =
    match rstrip s with
    | EmptyString => if isspace c then EmptyString else String c EmptyString
    | r => String c r
    end.
Proof. reflexivity. Qed.

Lemma rstrip_starts_clean (s : string) : starts_clean s -> starts_clean (rstrip s).
Proof.
  destruct s as [|c s]; [trivial|]. rewrite rstrip_cons. cbn [starts_clean].
  intros Hc. destruct (rstrip s); rewrite ?Hc; exact Hc.
Qed.

Lemma rstrip_idem (s : string) : rstrip (rstrip s) = rstrip s.
Proof.
  induction s as [|c s IH]; [reflexivity|].
  rewrite (rstrip_cons c s). destruct (rstrip s) as [|d r] eqn:Hr.
  - destruct (isspace c) eqn:Hc; [reflexivity|].
    rewrite rstrip_cons. cbn [rstrip]. rewrite Hc. reflexivity.
  - rewrite rstrip_cons, IH. reflexivity.
Qed.

(** Stripping twice is stripping once. *)
Lemma strip_idem (s : string) : strip (strip s) = strip s.
Proof.
  unfold strip.
  rewrite (lstrip_clean (rstrip (lstrip s))).
  - apply rstrip_idem.
  - apply rstrip_starts_clean, lstrip_starts_clean.
Qed.

Lemma prefix_extend (p x r : string) :
  String.prefix p x = true -> String.prefix p (x +:+ r) = true.
Proof.
  revert x. induction p as [|a p IH]; intros x;
    [intros _; destruct (x +:+ r); reflexivity|].
  destruct x as [|b x]; [discriminate|].
  change (String b x +:+ r) with (String b (x +:+ r)). cbn [String.prefix].
  destruct (ascii_dec a b); [apply IH | discriminate].
Qed.

Lemma partition_before (sep s a b : string) :
  partition sep s = Some (a, b) -> exists r, s = a +:+ r.
Proof.
  revert a. induction s as [|c s IH]; intros a; cbn [partition].
  - destruct (String.prefix sep ""); [|discriminate].
    intros [= <- _]. exists "". reflexivity.
  - destruct (String.prefix sep (String c s)).
    + intros [= <- _]. exists (String c s). reflexivity.
    + destruct (partition sep s) as [[a' b']|]; [|discriminate].
      intros [= <- <-]. destruct (IH a' eq_refl) as [r ->].
      exists r. reflexivity.
Qed.

(** The text before the first occurrence of [sep] holds no [sep]. *)
Lemma partition_before_clean (sep s a b : string) :
  sep ≠ EmptyString ->
  partition sep s = Some (a, b) -> contains sep a = false.
Proof.
  intros Hsep. revert a. induction s as [|c s IH]; intros a; cbn [partition].
  - destruct (String.prefix sep "") eqn:Hp; [|discriminate].
    rewrite (prefix_empty _ Hsep) in Hp. discriminate.
  - destruct (String.prefix sep (String c s)) eqn:Hp.
    + intros [= <- _]. cbn [contains]. rewrite (prefix_empty _ Hsep). reflexivity.
    + destruct (partition sep s) as [[a' b']|] eqn:Hpart; [|discriminate].
      intros [= <- <-]. cbn [contains]. rewrite (IH a' eq_refl).
      destruct (partition_before _ _ _ _ Hpart) as [r Hr].
      destruct (String.prefix sep (String c a')) eqn:Hpa; [|reflexivity].
      apply (prefix_extend _ _ r) in Hpa.
      change (String c a' +:+ r) with (String c (a' +:+ r)) in Hpa.
      rewrite <- Hr, Hp in Hpa. discriminate.
Qed.

Lemma contains_false_partition (sep s : string) :
  contains sep s = false -> partition sep s = None.
Proof.
  intros Hc. destruct (partition sep s) as [p|] eqn:Hp; [|reflexivity].
  assert (H : contains sep s = true) by (apply contains_partition; eauto).
  congruence.
Qed.

End PyStrMore.

(** ** URL extraction and video identifiers, further *)

Section Extraction.
Import PyStr PyStrFacts PyStrMore Spec Observe SingleChannelBot.

Lemma prefix_nil (s : string) : String.prefix "" s = true.
Proof. destruct s; reflexivity. Qed.

Lemma startswith_append (p s : string) : startswith (p +:+ s) p = true.
Proof.
  unfold startswith. induction p as [|c p IH]; [apply prefix_nil|].
  change (String c p +:+ s) with (String c (p +:+ s)). cbn [String.prefix].
  destruct (ascii_dec c c); [exact IH | congruence].
Qed.

Lemma text_upto_clean (stop s : string) :
  stop ≠ EmptyString -> contains stop (text_upto stop s) = false.
Proof.
  intros Hstop. unfold text_upto.
  destruct (partition stop s) as [[a b]|] eqn:Hp.
  - exact (partition_before_clean _ _ _ _ Hstop Hp).
  - destruct (contains stop s) eqn:Hc; [|reflexivity].
    apply contains_partition in Hc as [? Hc]. congruence.
Qed.

Lemma text_upto_absent (stop s : string) :
  contains stop s = false -> text_upto stop s = s.
Proof.
  intros Hc. unfold text_upto. rewrite (contains_false_partition _ _ Hc).
  reflexivity.
Qed.

Lemma watch_page_marker (video_id : string) :
  is_video (video_page video_id) = true
  /\ contains "watch?v=" (video_page video_id) = true
  /\ text_after "watch?v=" (video_page video_id) = video_id.
Proof. destruct video_id; repeat split; reflexivity. Qed.

Lemma count_extracted (tokens : list string) (url : string) :
  startswith url "http" = true ->
  count_occ String.string_dec
    (filter (fun word => startswith word "http") tokens) url
  = count_occ String.string_dec tokens url.
Proof.
  intros Hurl. induction tokens as [|token tokens IH]; [reflexivity|].
  rewrite filter_cons. destruct (decide (startswith token "http")) as [Hp|Hp].
  - cbn [count_occ]. rewrite IH. reflexivity.
  - cbn [count_occ]. destruct (String.string_dec token url) as [->|_]; [|exact IH].
    exfalso. apply Hp. rewrite Hurl. exact I.
Qed.

(** X1: every URL that [extract_urls] gives starts with [http] and holds
    no whitespace; the URLs are tokens of the text, in the order of the
    text; and a token that starts with [http] is given as many times as
    it is written in the text: none is dropped and repeats are kept. *)
Theorem extracted_urls_are_tokens (text : string) :
  Forall (fun url => startswith url "http" = true /\ has_space url = false)
         (extract_urls text)
  /\ extract_urls text `sublist_of` words text
  /\ (forall token,
        startswith token "http" = true ->
        count_occ String.string_dec (extract_urls text) token
        = count_occ String.string_dec (words text) token).
Proof.
  split; [|split; [apply sublist_filter|]].
  - apply Forall_forall. intros url Hin. unfold extract_urls in Hin.
    apply list_elem_of_filter in Hin as [Hhttp Hin].
    split; [apply Is_true_true; exact Hhttp|].
    pose proof (words_tokens text) as Htok.
    rewrite Forall_forall in Htok. exact (proj2 (Htok url Hin)).
  - intros token Htoken. apply count_extracted. exact Htoken.
Qed.

(** X2: the URLs of two texts joined by a whitespace character are the
    URLs of the first followed by the URLs of the second. *)
Theorem extract_urls_join (sp : ascii) (a b : string) :
  isspace sp = true ->
  extract_urls (a +:+ String sp b) = extract_urls a ++ extract_urls b.
Proof.
  intros Hsp. unfold extract_urls. rewrite (words_join sp a b Hsp).
  apply filter_app.
Qed.

(** X3: the watch page the bot fetches for an identifier is a video URL
    from which [get_youtube_video_id] gives the identifier back, when the
    identifier holds neither [&] nor [watch?v=]. *)
Theorem watch_page_round_trip (video_id : string) :
  contains "&" video_id = false ->
  contains "watch?v=" video_id = false ->
  is_video (video_page video_id) = true
  /\ get_youtube_video_id (video_page video_id) = Some video_id.
Proof.
  intros Hamp Hmark.
  destruct (watch_page_marker video_id) as (Hv & Hc & Hafter).
  split; [exact Hv|].
  unfold get_youtube_video_id.
  rewrite Hc, piece_between; [|discriminate..|exact Hc].
  unfold between_markers.
  rewrite Hafter, (text_upto_absent _ _ Hmark), (text_upto_absent _ _ Hamp).
  reflexivity.
Qed.

(** X4: an identifier [get_youtube_video_id] gives never holds the
    character that ends it: no [&] when the URL has [watch?v=], and no
    [?] otherwise. *)
Theorem video_id_has_no_separator (url video_id : string) :
  get_youtube_video_id url = Some video_id ->
  (contains "watch?v=" url = true -> contains "&" video_id = false)
  /\ (contains "watch?v=" url = false -> contains "?" video_id = false).
Proof.
  unfold get_youtube_video_id.
  destruct (contains "watch?v=" url) eqn:H1.
  { rewrite piece_between; [|discriminate..|exact H1].
    intros [= <-]. split; [intros _|discriminate].
    apply text_upto_clean. discriminate. }
  destruct (contains "/shorts/" url) eqn:H2.
  { rewrite piece_between; [|discriminate..|exact H2].
    intros [= <-]. split; [discriminate|intros _].
    apply text_upto_clean. discriminate. }
  destruct (contains "youtu.be/" url) eqn:H3; [|discriminate].
  rewrite piece_between; [|discriminate..|exact H3].
  intros [= <-]. split; [discriminate|intros _].
  apply text_upto_clean. discriminate.
Qed.

End Extraction.

(** ** Link enrichment, further *)

Section EnrichmentMore.
Import PyStr PyStrFacts PyStrMore Spec Observe SingleChannelBot.
Context (w : world).

Lemma title_or_fallback_clean (page : document) :
  strip (title_or_fallback page) = title_or_fallback page.
Proof.
  unfold title_or_fallback.
  destruct (title page) as [[text|]|]; [apply strip_idem|reflexivity..].
Qed.

Lemma description_or_fallback_clean (page : document) :
  strip (description_or_fallback page) = description_or_fallback page.
Proof.
  unfold description_or_fallback.
  destruct (meta_description page) as [[content|]|]; [apply strip_idem|reflexivity..].
Qed.

Lemma page_description_shape (s : site) (line : string) :
  page_description_result s = Returns (Some line) ->
  exists page_title description,
    line = "Title: " +:+ page_title +:+ ", Description: " +:+ description
    /\ strip page_title = page_title
    /\ strip description = description.
Proof.
  unfold page_description_result.
  destruct s as [st page| |]; [|discriminate..].
  destruct (requests.error_status st); [discriminate|].
  intros H.
  assert (Hline : line = "Title: " +:+ title_or_fallback page
                         +:+ ", Description: " +:+ description_or_fallback page).
  { destruct (title page) as [[text|]|];
      destruct (meta_description page) as [[content|]|];
      first [discriminate H | injection H as <-; reflexivity]. }
  exists (title_or_fallback page), (description_or_fallback page).
  split; [exact Hline|].
  split; [apply title_or_fallback_clean | apply description_or_fallback_clean].
Qed.

Lemma video_title_clean (s : site) (text : string) :
  video_title_result s = Returns (Some text) -> strip text = text.
Proof.
  unfold video_title_result.
  destruct s as [st page| |]; [|discriminate..].
  destruct (requests.error_status st); [discriminate|].
  destruct (title page) as [[raw|]|]; [|discriminate|].
  - intros [= <-]. apply strip_idem.
  - intros [= <-]. reflexivity.
Qed.

(** X5: for a URL that counts as a video but has no identifier, or an
    empty one, nothing is requested and nothing is sent. *)
Theorem video_without_identifier (channel url : string) :
  is_video url = true ->
  get_youtube_video_id url = None \/ get_youtube_video_id url = Some "" ->
  run (enrich w channel url) = ([], Returns ()).
Proof.
  unfold is_video, run, enrich. intros -> [-> | ->]; reflexivity.
Qed.

(** X6: when the title of a video page is empty once the site suffix and
    the surrounding whitespace are removed, the page is requested and
    nothing is sent. *)
Theorem video_title_empty_after_cleaning
    (channel url video_id text : string) (st : Z) (page : document) :
  is_video url = true ->
  get_youtube_video_id url = Some video_id ->
  truthy video_id = true ->
  web w (video_page video_id) = Serves st page ->
  requests.error_status st = false ->
  title page = Some (Some text) ->
  strip (replace "- YouTube" "" text) = "" ->
  run (get_youtube_video_title w video_id)
    = ([HttpGet (video_page video_id) None], Returns (Some ""))
  /\ run (enrich w channel url)
    = ([HttpGet (video_page video_id) None], Returns ()).
Proof.
  unfold is_video, run, enrich. intros -> -> Hne Hweb Hst Ht Hempty.
  cbn [when_truthy]. rewrite Hne. unfold mbind, M_bind.
  rewrite !video_title_run. unfold video_title_result.
  rewrite Hweb, Hst, Ht, Hempty. split; reflexivity.
Qed.

(** X7: a title [get_youtube_video_title] gives has no whitespace in front
    or at the end: stripping it again changes nothing. *)
Theorem video_title_is_stripped (video_id text : string) :
  (run (get_youtube_video_title w video_id)).2 = Returns (Some text) ->
  strip text = text.
Proof.
  unfold run. rewrite video_title_run. cbn [snd]. apply video_title_clean.
Qed.

(** X8: a description [get_webpage_description] gives is
    "Title: <title>, Description: <description>", where neither part has
    whitespace in front or at the end. *)
Theorem page_description_is_stripped (url line : string) :
  (run (get_webpage_description w url)).2 = Returns (Some line) ->
  exists page_title description,
    line = "Title: " +:+ page_title +:+ ", Description: " +:+ description
    /\ strip page_title = page_title
    /\ strip description = description.
Proof.
  unfold run. rewrite page_description_run. cbn [snd].
  apply page_description_shape.
Qed.

(** What one pass of the loop body can call. *)
Lemma enrich_events (channel url : string) :
  Forall (pass_event channel url) (run (enrich w channel url)).1.
Proof.
  unfold run, enrich. fold (is_video url).
  destruct (is_video url) eqn:Hv.
  - destruct (get_youtube_video_id url) as [vid|] eqn:Hid; cbn [when_truthy];
      [destruct (truthy vid) eqn:Hne|]; try apply Forall_nil_2.
    unfold mbind, M_bind. rewrite video_title_run.
    assert (Hget : pass_event channel url (HttpGet (video_page vid) None)).
    { right. split; [exact Hv|]. split; [reflexivity|]. exists vid. auto. }
    destruct (video_title_result _) as [[text|]|e|]; cbn [when_truthy];
      [destruct (truthy text)|..]; step_M; cbn [fst app];
      (apply Forall_cons_2; [exact Hget|]); try apply Forall_nil_2.
    apply Forall_cons_2; [|apply Forall_nil_2].
    split; [reflexivity|]. left. apply (startswith_append "YouTube Title: ").
  - unfold mbind, M_bind. rewrite page_description_run.
    assert (Hget : pass_event channel url (HttpGet url (Some 10%Z))).
    { left. auto. }
    destruct (page_description_result _) as [[line|]|e|] eqn:Hres;
      cbn [when_truthy];
      [destruct (truthy line)|..]; step_M; cbn [fst app];
      (apply Forall_cons_2; [exact Hget|]); try apply Forall_nil_2.
    apply Forall_cons_2; [|apply Forall_nil_2].
    split; [reflexivity|]. right.
    apply page_description_shape in Hres as (T & D & -> & _).
    apply (startswith_append "Page Info: Title: ").
Qed.

Lemma sequence_runs_Forall (P : event -> Prop)
    (runs : list (list event * outcome unit)) :
  Forall (fun r => Forall P r.1) runs -> Forall P (sequence_runs runs).1.
Proof.
  induction 1 as [|[calls o] runs Hr _ IH]; [apply Forall_nil_2|].
  destruct o as [[]|e|]; cbn [sequence_runs fst]; [|exact Hr..].
  apply Forall_app. split; [exact Hr | exact IH].
Qed.

(** What the dispatcher can call for a message that is not a command. *)
Lemma on_pubmsg_events (message channel : string) :
  startswith message "!stock" = false ->
  Forall (fun ev => exists url,
            url ∈ extract_urls message /\ pass_event channel url ev)
         (run (on_pubmsg w message channel)).1.
Proof.
  intros Hcmd. unfold run, on_pubmsg. rewrite Hcmd, for_each_enrich.
  cbn [fst app]. apply sequence_runs_Forall.
  apply Forall_forall. intros r Hin.
  apply list_elem_of_In, in_map_iff in Hin as (url & <- & Hin).
  eapply Forall_impl; [apply enrich_events|].
  intros ev Hev. exists url. split; [apply list_elem_of_In; exact Hin | exact Hev].
Qed.

Lemma Forall_observed {B : Type} (f : event -> option B)
    (P : event -> Prop) (Q : B -> Prop) (calls : list event) :
  (forall ev b, f ev = Some b -> P ev -> Q b) ->
  Forall P calls -> Forall Q (omap f calls).
Proof.
  intros HPQ. induction 1 as [|ev calls Hev _ IH]; [apply Forall_nil_2|].
  cbn [omap list_omap]. destruct (f ev) as [b|] eqn:Hf; [|exact IH].
  apply Forall_cons_2; [exact (HPQ ev b Hf Hev) | exact IH].
Qed.

(** A pass for a video whose server never answers: one request, without
    timeout, and the pass does not return. *)
Lemma stalled_pass (channel url video_id : string) (t : list event) :
  is_video url = true ->
  get_youtube_video_id url = Some video_id ->
  truthy video_id = true ->
  web w (video_page video_id) = Stalls ->
  enrich w channel url t = (t ++ [HttpGet (video_page video_id) None], Blocks).
Proof.
  unfold is_video, enrich. intros -> -> Hne Hweb.
  cbn [when_truthy]. rewrite Hne. unfold mbind, M_bind.
  rewrite video_title_run, Hweb. reflexivity.
Qed.

Lemma for_each_never_raises (channel : string) (urls : list string)
    (t : list event) (e : exn) :
  (for_each urls (enrich w channel) t).2 ≠ Raises e.
Proof.
  rewrite for_each_enrich. cbn [snd]. apply sequence_runs_no_raise.
  intros r e' Hin. apply list_elem_of_In, in_map_iff in Hin as (url & <- & _).
  apply enrich_quiet.
Qed.

Lemma no_symbols_asked (message channel : string) :
  startswith message "!stock" = false ->
  symbols_asked (run (on_pubmsg w message channel)).1 = [].
Proof.
  intros Hcmd. pose proof (on_pubmsg_events message channel Hcmd) as Hev.
  induction Hev as [|ev calls (url & _ & Hev) _ IH]; [reflexivity|].
  unfold symbols_asked in *. cbn [omap list_omap].
  destruct ev; cbn [symbol_of]; [exact IH | destruct Hev | exact IH].
Qed.

(** X9: for a message that is not a command, every request is either for
    a token that is not a video, as it is written and with the timeout of
    10, or for the watch page of the identifier of a video token, without
    a timeout. *)
Theorem requests_of_a_message (message channel : string) :
  startswith message "!stock" = false ->
  Forall (fun request =>
            (request.2 = Some 10%Z
             /\ request.1 ∈ extract_urls message
             /\ is_video request.1 = false)
            \/ (request.2 = None
                /\ exists url video_id,
                     url ∈ extract_urls message
                     /\ is_video url = true
                     /\ get_youtube_video_id url = Some video_id
                     /\ request.1 = video_page video_id))
         (requests_made (run (on_pubmsg w message channel)).1).
Proof.
  intros Hcmd. unfold requests_made.
  eapply Forall_observed; [|exact (on_pubmsg_events message channel Hcmd)].
  intros [| |fetched timeout] request [= <-] (url & Hin & Hev). cbn [fst snd].
  destruct Hev as [(Hv & -> & ->) | (Hv & -> & vid & Hid & _ & ->)].
  - left. auto.
  - right. split; [reflexivity|]. exists url, vid. auto.
Qed.

(** X10: for a message that is not a command, every line sent goes to the
    channel of the message and starts with "YouTube Title: " or with
    "Page Info: Title: ". *)
Theorem lines_of_a_message (message channel : string) :
  startswith message "!stock" = false ->
  Forall (fun line =>
            line.1 = channel
            /\ (startswith line.2 "YouTube Title: " = true
                \/ startswith line.2 "Page Info: Title: " = true))
         (replies (run (on_pubmsg w message channel)).1).
Proof.
  intros Hcmd. unfold replies.
  eapply Forall_observed; [|exact (on_pubmsg_events message channel Hcmd)].
  intros [target text| |] line [= <-] (url & _ & Hev). exact Hev.
Qed.

(** X11: for a message that is not a command the provider is never
    asked. *)
Theorem enrichment_never_asks_provider (message channel : string) :
  startswith message "!stock" = false ->
  symbols_asked (run (on_pubmsg w message channel)).1 = [].
Proof. apply no_symbols_asked. Qed.

(** X13: when the server of the watch page of a video token never
    answers, the dispatcher does not return; and when the tokens before
    it are dealt with, the request of that page is the last call: nothing
    is requested or sent for the tokens after it. *)
Theorem stalled_video_blocks
    (message channel url video_id : string) (before after : list string) :
  startswith message "!stock" = false ->
  extract_urls message = before ++ url :: after ->
  is_video url = true ->
  get_youtube_video_id url = Some video_id ->
  truthy video_id = true ->
  web w (video_page video_id) = Stalls ->
  (run (on_pubmsg w message channel)).2 = Blocks
  /\ ((run (for_each before (enrich w channel))).2 = Returns () ->
      (run (on_pubmsg w message channel)).1
      = (run (for_each before (enrich w channel))).1
        ++ [HttpGet (video_page video_id) None]).
Proof.
  intros Hcmd Hsplit Hv Hid Hne Hweb. unfold run, on_pubmsg.
  rewrite Hcmd, Hsplit, for_each_app. unfold mbind, M_bind.
  pose proof (for_each_never_raises channel before []) as Hraise.
  destruct (for_each before (enrich w channel) []) as [t [[]|e|]]; cbn [fst snd].
  - cbn [for_each]. unfold mbind, M_bind.
    rewrite (stalled_pass channel url video_id t Hv Hid Hne Hweb).
    split; [reflexivity|]. intros _. reflexivity.
  - exfalso. exact (Hraise e eq_refl).
  - split; [reflexivity|]. discriminate.
Qed.

End EnrichmentMore.

(** ** The dispatcher and the stock command, further *)

Section DispatchMore.
Import PyStr PyStrFacts PyStrMore Spec Observe SingleChannelBot.
Context (w : world).

(** A command is dealt with in one of two ways. *)
Lemma command_run (message channel : string) :
  startswith message "!stock" = true ->
  run (on_pubmsg w message channel)
    = ([Privmsg channel "Usage: !stock TICKER"], Returns ())
  \/ exists cmd symbol reply,
       words message = [cmd; symbol]
       /\ run (on_pubmsg w message channel)
          = ([TickerInfo (upper symbol); Privmsg channel reply], Returns ()).
Proof.
  intros Hcmd. unfold run, on_pubmsg. rewrite Hcmd.
  destruct (Nat.eq_dec (length (words message)) 2) as [E|E].
  - right.
    destruct (words message) as [|cmd [|symbol [|? ?]]] eqn:Hw; try discriminate E.
    destruct (handle_two_tokens w message channel cmd symbol [] Hw)
      as (reply & _ & _ & Hh).
    exists cmd, symbol, reply. split; [reflexivity | exact Hh].
  - left. exact (handle_other_shape w message channel [] E).
Qed.

Lemma get_stock_price_live (ticker : string) (d : gmap string pyval)
    (t : list event) :
  yf_info w ticker = InfoDict d ->
  is_none (tier d "regularMarketPrice") = false ->
  get_stock_price w ticker t
    = (t ++ [TickerInfo ticker],
       Returns (live_phrase (company_of d ticker) ticker
                  (format (tier d "regularMarketPrice")) (currency_of d))).
Proof.
  intros Hd Hprice. unfold get_stock_price. step_M. rewrite Hd.
  fold (tier d "regularMarketPrice"). rewrite Hprice. reflexivity.
Qed.

(** X15: every line the dispatcher sends goes to the channel the message
    came from, whatever the message. *)
Theorem lines_go_to_the_channel (message channel : string) :
  Forall (fun line => line.1 = channel)
         (replies (run (on_pubmsg w message channel)).1).
Proof.
  destruct (startswith message "!stock") eqn:Hcmd.
  - destruct (command_run message channel Hcmd)
      as [-> | (cmd & symbol & reply & _ & ->)];
      cbn; (apply Forall_cons_2; [|apply Forall_nil_2]); reflexivity.
  - unfold replies.
    eapply Forall_observed; [|exact (on_pubmsg_events w message channel Hcmd)].
    intros [target text| |] line [= <-] (url & _ & Hev). exact (proj1 Hev).
Qed.

(** X16: for every message that starts with [!stock] the dispatcher
    sends exactly one line, to the channel of the message, asks the
    provider at most once, and requests no page. *)
Theorem command_gets_one_line (message channel : string) :
  startswith message "!stock" = true ->
  (exists text,
     replies (run (on_pubmsg w message channel)).1 = [(channel, text)])
  /\ length (symbols_asked (run (on_pubmsg w message channel)).1) <= 1
  /\ requests_made (run (on_pubmsg w message channel)).1 = [].
Proof.
  intros Hcmd.
  destruct (command_run message channel Hcmd)
    as [-> | (cmd & symbol & reply & _ & ->)].
  - split; [eexists; reflexivity|]. split; [cbn; lia|reflexivity].
  - split; [eexists; reflexivity|]. split; [cbn; lia|reflexivity].
Qed.

(** X17: the case of the symbol does not matter: two commands of two
    tokens whose symbols are equal in upper case are answered by the same
    calls. *)
Theorem symbol_case_does_not_matter
    (message message' channel cmd cmd' symbol symbol' : string) :
  words message = [cmd; symbol] ->
  words message' = [cmd'; symbol'] ->
  upper symbol = upper symbol' ->
  run (handle_stock_command w message channel)
  = run (handle_stock_command w message' channel).
Proof.
  intros Hw Hw' Hup. unfold run.
  destruct (handle_two_tokens w message channel cmd symbol [] Hw)
    as (reply & Hrun & _ & ->).
  destruct (handle_two_tokens w message' channel cmd' symbol' [] Hw')
    as (reply' & Hrun' & _ & ->).
  rewrite <- Hup in Hrun'. rewrite Hrun in Hrun'. injection Hrun' as ->.
  rewrite Hup. reflexivity.
Qed.

(** X18: every symbol the provider is asked for is a token of the
    message put in upper case: it is not empty, holds no whitespace, and
    [upper] leaves it as it is. *)
Theorem symbols_asked_are_upper_tokens (message channel : string) :
  Forall (fun symbol =>
            truthy symbol = true
            /\ has_space symbol = false
            /\ upper symbol = symbol)
         (symbols_asked (run (on_pubmsg w message channel)).1).
Proof.
  destruct (startswith message "!stock") eqn:Hcmd.
  - destruct (command_run message channel Hcmd)
      as [-> | (cmd & symbol & reply & Hw & ->)]; [apply Forall_nil_2|].
    cbn. apply Forall_cons_2; [|apply Forall_nil_2].
    pose proof (words_tokens message) as Htok. rewrite Hw in Htok.
    apply Forall_cons in Htok as [_ Htok].
    apply Forall_cons in Htok as [[Hne Hsp] _].
    rewrite upper_truthy, upper_has_space, upper_idem. auto.
  - rewrite (no_symbols_asked w message channel Hcmd). apply Forall_nil_2.
Qed.

(** X19: the fallbacks of the company name and of the currency are for a
    key that is not set: with a regular price and neither [longName] nor
    [currency], the reply names the company by the symbol and gives "N/A"
    as currency; with both keys set to [None] the reply has the text
    "None" in both places. *)
Theorem name_and_currency_fallbacks
    (ticker : string) (d : gmap string pyval) (price : pyval) :
  yf_info w ticker = InfoDict d ->
  d !! "regularMarketPrice" = Some price ->
  price ≠ PyNone ->
  (d !! "longName" = None -> d !! "currency" = None ->
   run (get_stock_price w ticker)
   = ([TickerInfo ticker],
      Returns (ticker +:+ " (" +:+ ticker +:+ ") is currently trading at "
               +:+ format price +:+ " N/A")))
  /\ (d !! "longName" = Some PyNone -> d !! "currency" = Some PyNone ->
      run (get_stock_price w ticker)
      = ([TickerInfo ticker],
         Returns ("None (" +:+ ticker +:+ ") is currently trading at "
                  +:+ format price +:+ " None"))).
Proof.
  intros Hd Hprice Hset.
  assert (Hlive : is_none (tier d "regularMarketPrice") = false).
  { unfold tier. rewrite Hprice. destruct price; congruence || reflexivity. }
  unfold run. rewrite (get_stock_price_live ticker d [] Hd Hlive).
  unfold live_phrase, company_of, currency_of, tier. rewrite Hprice.
  split; intros -> ->; reflexivity.
Qed.

End DispatchMore.

(** ** Connecting, further *)

Section Connecting.
Import PyStr Welcome.

(** X20: [on_welcome] sends the identification line only for a password
    that is a string and not empty, with the password as it is, and before
    anything else; it joins the channel given to the constructor, as its
    last call, unless the identification does not return; a bot made
    without a password only joins. *)
Theorem on_welcome_calls (c : irc_call -> outcome unit) :
  (forall self,
     nickserv_password self = None \/ nickserv_password self = Some "" ->
     on_welcome self c = perform c [Join (channel self)])
  /\ (forall self password,
        nickserv_password self = Some password ->
        password ≠ "" ->
        let identify := Send ("PRIVMSG NickServ :IDENTIFY " +:+ password) in
        (c identify = Returns () ->
         on_welcome self c
         = (identify :: (perform c [Join (channel self)]).1,
            (perform c [Join (channel self)]).2))
        /\ (c identify ≠ Returns () ->
            on_welcome self c = ([identify], c identify)))
  /\ (forall self,
        (on_welcome self c).2 = Returns () ->
        last (on_welcome self c).1 = Some (Join (channel self)))
  /\ (forall channel nickname server port,
        (on_welcome (init channel nickname server port None) c).1
        = [Join channel]).
Proof.
  split; [|split; [|split]].
  - intros self [H | H]; unfold on_welcome; rewrite H; reflexivity.
  - intros self password Hpw Hne identify. unfold on_welcome. rewrite Hpw.
    destruct password as [|ch password]; [congruence|].
    cbn [truthy app perform]. fold identify.
    destruct (c identify) as [[]|e|]; split; intros H;
      reflexivity || congruence.
  - intros self. unfold on_welcome.
    destruct (nickserv_password self) as [[|ch password]|]; cbn [truthy app perform].
    + destruct (c (Join (channel self))) as [[]|e|]; [reflexivity|discriminate..].
    + destruct (c (Send _)) as [[]|e|]; [|discriminate..].
      destruct (c (Join (channel self))) as [[]|e|]; [reflexivity|discriminate..].
    + destruct (c (Join (channel self))) as [[]|e|]; [reflexivity|discriminate..].
  - intros channel nickname server port. unfold on_welcome, init.
    cbn [nickserv_password Welcome.channel app perform].
    destruct (c (Join channel)) as [[]|e|]; reflexivity.
Qed.

End Connecting.

(** ** The further properties at particular inputs *)

Section MoreInputs.
Import PyStr Spec Observe SingleChannelBot Examples Welcome.

Lemma extracted_urls_are_tokens_witness :
  startswith "http://example.org/a" "http" = true
  /\ count_occ String.string_dec
       (extract_urls "http://example.org/a or http://example.org/a")
       "http://example.org/a"
     = 2.
Proof.
  split; [reflexivity|].
  destruct (extracted_urls_are_tokens "http://example.org/a or http://example.org/a")
    as (_ & _ & Hcount).
  rewrite (Hcount "http://example.org/a" eq_refl). reflexivity.
Defined.

Lemma extract_urls_join_witness :
  isspace " " = true
  /\ extract_urls ("see http://example.org/a" +:+ String " " "and https://example.org/b")
     = ["http://example.org/a"; "https://example.org/b"].
Proof.
  split; [reflexivity|].
  rewrite (extract_urls_join " " "see http://example.org/a"
             "and https://example.org/b" eq_refl).
  reflexivity.
Defined.

Lemma watch_page_round_trip_witness :
  contains "&" "Q1W2E3" = false
  /\ contains "watch?v=" "Q1W2E3" = false
  /\ get_youtube_video_id (video_page "Q1W2E3") = Some "Q1W2E3".
Proof.
  split; [reflexivity|]. split; [reflexivity|].
  exact (proj2 (watch_page_round_trip "Q1W2E3" eq_refl eq_refl)).
Defined.

Lemma video_id_has_no_separator_witness :
  get_youtube_video_id "https://youtu.be/Q1W2E3?t=5" = Some "Q1W2E3"
  /\ contains "?" "Q1W2E3" = false.
Proof.
  split; [reflexivity|].
  exact (proj2 (video_id_has_no_separator "https://youtu.be/Q1W2E3?t=5" "Q1W2E3"
                  eq_refl) eq_refl).
Defined.

Lemma video_without_identifier_witness :
  is_video "https://www.youtube.com/feed/trending" = true
  /\ get_youtube_video_id "https://www.youtube.com/feed/trending" = None
  /\ run (enrich untitled "#guns" "https://www.youtube.com/feed/trending")
     = ([], Returns ()).
Proof.
  split; [reflexivity|]. split; [reflexivity|].
  exact (video_without_identifier untitled "#guns"
           "https://www.youtube.com/feed/trending" eq_refl (or_introl eq_refl)).
Defined.

Lemma video_title_empty_after_cleaning_witness :
  strip (replace "- YouTube" "" " - YouTube ") = ""
  /\ run (enrich suffix_only "#guns" "https://youtu.be/Q1W2E3")
     = ([HttpGet (video_page "Q1W2E3") None], Returns ()).
Proof.
  split; [reflexivity|].
  exact (proj2 (video_title_empty_after_cleaning suffix_only "#guns"
                  "https://youtu.be/Q1W2E3" "Q1W2E3" " - YouTube " 200%Z
                  {| title := Some (Some " - YouTube "); meta_description := None |}
                  eq_refl eq_refl eq_refl eq_refl eq_refl eq_refl eq_refl)).
Defined.

Lemma video_title_is_stripped_witness :
  (run (get_youtube_video_title untitled "Q1W2E3")).2
    = Returns (Some "No Title Found")
  /\ strip "No Title Found" = "No Title Found".
Proof.
  split; [reflexivity|].
  exact (video_title_is_stripped untitled "Q1W2E3" "No Title Found" eq_refl).
Defined.

Lemma page_description_is_stripped_witness :
  (run (get_webpage_description one_page "http://example.org/a")).2
    = Returns (Some "Title: A page, Description: About A")
  /\ exists page_title description,
       "Title: A page, Description: About A"
       = "Title: " +:+ page_title +:+ ", Description: " +:+ description
       /\ strip page_title = page_title
       /\ strip description = description.
Proof.
  split; [reflexivity|].
  exact (page_description_is_stripped one_page "http://example.org/a"
           "Title: A page, Description: About A" eq_refl).
Defined.

Lemma requests_of_a_message_witness :
  startswith "http://example.org/a https://youtu.be/Q1W2E3" "!stock" = false
  /\ requests_made
       (run (on_pubmsg one_page "http://example.org/a https://youtu.be/Q1W2E3"
               "#guns")).1
     = [("http://example.org/a", Some 10%Z); (video_page "Q1W2E3", None)]
  /\ Forall (fun request => request.2 = Some 10%Z \/ request.2 = None)
            (requests_made
               (run (on_pubmsg one_page
                       "http://example.org/a https://youtu.be/Q1W2E3" "#guns")).1).
Proof.
  split; [reflexivity|]. split; [reflexivity|].
  eapply Forall_impl;
    [exact (requests_of_a_message one_page
              "http://example.org/a https://youtu.be/Q1W2E3" "#guns" eq_refl)|].
  intros request [(H & _) | (H & _)]; [left | right]; exact H.
Defined.

Lemma lines_of_a_message_witness :
  startswith "see http://example.org/a" "!stock" = false
  /\ Forall (fun line => line.1 = "#guns")
            (replies (run (on_pubmsg one_page "see http://example.org/a" "#guns")).1).
Proof.
  split; [reflexivity|].
  eapply Forall_impl;
    [exact (lines_of_a_message one_page "see http://example.org/a" "#guns" eq_refl)|].
  intros line [H _]. exact H.
Defined.

Lemma enrichment_never_asks_provider_witness :
  startswith "AAPL is at http://example.org/a" "!stock" = false
  /\ symbols_asked
       (run (on_pubmsg after_close "AAPL is at http://example.org/a" "#guns")).1
     = [].
Proof.
  split; [reflexivity|].
  exact (enrichment_never_asks_provider after_close
           "AAPL is at http://example.org/a" "#guns" eq_refl).
Defined.

Lemma stalled_video_blocks_witness :
  extract_urls "http://example.org/a https://youtu.be/Q1W2E3 http://example.org/b"
    = ["http://example.org/a"] ++ "https://youtu.be/Q1W2E3" :: ["http://example.org/b"]
  /\ (run (on_pubmsg stalled
             "http://example.org/a https://youtu.be/Q1W2E3 http://example.org/b"
             "#guns")).2 = Blocks.
Proof.
  split; [reflexivity|].
  exact (proj1 (stalled_video_blocks stalled
                  "http://example.org/a https://youtu.be/Q1W2E3 http://example.org/b"
                  "#guns" "https://youtu.be/Q1W2E3" "Q1W2E3"
                  ["http://example.org/a"] ["http://example.org/b"]
                  eq_refl eq_refl eq_refl eq_refl eq_refl eq_refl)).
Defined.

Lemma command_gets_one_line_witness :
  startswith "!stock" "!stock" = true
  /\ exists text,
       replies (run (on_pubmsg after_close "!stock" "#guns")).1 = [("#guns", text)].
Proof.
  split; [reflexivity|].
  exact (proj1 (command_gets_one_line after_close "!stock" "#guns" eq_refl)).
Defined.

Lemma symbol_case_does_not_matter_witness :
  upper "aapl" = upper "AaPl"
  /\ run (handle_stock_command after_close "!stock aapl" "#guns")
     = run (handle_stock_command after_close "!stock   AaPl" "#guns").
Proof.
  split; [reflexivity|].
  exact (symbol_case_does_not_matter after_close "!stock aapl" "!stock   AaPl"
           "#guns" "!stock" "!stock" "aapl" "AaPl" eq_refl eq_refl eq_refl).
Defined.

Lemma name_and_currency_fallbacks_witness :
  yf_info bare_quotes "XYZ" = InfoDict price_only
  /\ run (get_stock_price bare_quotes "XYZ")
     = ([TickerInfo "XYZ"], Returns "XYZ (XYZ) is currently trading at 12 N/A").
Proof.
  split; [reflexivity|].
  destruct (name_and_currency_fallbacks bare_quotes "XYZ" price_only (PyInt 12)
              eq_refl eq_refl) as [Hmissing _]; [discriminate|].
  exact (Hmissing eq_refl eq_refl).
Defined.

Lemma on_welcome_calls_witness :
  on_welcome (init "#guns" "Cathy" "tx.usairc.org" (Some 6667%Z) (Some "secret"))
             obliging
  = ([Send "PRIVMSG NickServ :IDENTIFY secret"; Join "#guns"], Returns ()).
Proof.
  destruct (on_welcome_calls obliging) as (_ & Hset & _).
  destruct (Hset (init "#guns" "Cathy" "tx.usairc.org" (Some 6667%Z) (Some "secret"))
              "secret" eq_refl) as [Hsent _]; [discriminate|].
  exact (Hsent eq_refl).
Defined.

End MoreInputs.
